(** * Vision sensor unit of the local position estimator

    A shallow embedding of
    [src/modules/local_position_estimator/sensors/vision.cpp]:
    [visionInit], [visionMeasure], [visionCorrect] and
    [visionCheckTimeout], over IEEE-754 binary32 arithmetic, together with
    the properties of the unit's validation logic, fault gate and timeout
    monitor. *)

From Stdlib Require Import ZArith Bool List Lia Floats.SpecFloat.
From stdpp Require Import base list.
Import ListNotations.

Local Open Scope Z_scope.

(** ** Machine numbers *)

(** [float] is IEEE-754 binary32: 24 bits of precision, exponents below 128.
    [double] is binary64; the unit only moves doubles around. *)
Definition float32 : Type := spec_float.
Definition float64 : Type := spec_float.

Module F32.
Definition prec : Z := 24.
Definition emax : Z := 128.

Definition add : float32 -> float32 -> float32 := SFadd prec emax.
Definition sub : float32 -> float32 -> float32 := SFsub prec emax.
Definition mul : float32 -> float32 -> float32 := SFmul prec emax.
Definition div : float32 -> float32 -> float32 := SFdiv prec emax.
Definition sqrtf : float32 -> float32 := SFsqrt prec emax.

(** [a < b], [a <= b] and [a > b] of C: false as soon as one side is NaN. *)
Definition lt (a b : float32) : bool := SFltb a b.
Definition le (a b : float32) : bool := SFleb a b.
Definition gt (a b : float32) : bool := SFltb b a.

(** Conversion of an integer to [float], round to nearest even. *)
Definition of_Z (z : Z) : float32 := binary_normalize prec emax z 0 false.

Definition zero : float32 := S754_zero false.
Definition one : float32 := of_Z 1.

Definition is_nan (a : float32) : bool :=
  match a with S754_nan => true | _ => false end.

(** [PX4_ISFINITE], that is [std::isfinite]. *)
Definition isfinite (a : float32) : bool :=
  match a with
  | S754_zero _ | S754_finite _ _ _ => true
  | S754_infinity _ | S754_nan => false
  end.

(** [fmaxf] of the C library: a NaN argument is treated as missing. *)
Definition fmaxf (a b : float32) : float32 :=
  if is_nan a then b
  else if is_nan b then a
  else if lt a b then b else a.
End F32.

Definition PX4_ISFINITE : float32 -> bool := F32.isfinite.

(** Unsigned integer fields wrap around at their width. *)
Definition wrap (bits : Z) (z : Z) : Z := z mod 2 ^ bits.
Definition wrap16 : Z -> Z := wrap 16.
Definition wrap64 : Z -> Z := wrap 64.

(** ** Matrices *)

(** Modelled from the spec: the matrix library ([matrix/math.hpp]) is
    included by the unit but lives outside its source file; the spec uses
    its operations as the usual ones ("r = Y - C x0", "S = C P C' + R",
    "K = P C' S^-1").  A [Matrix<float, M, N>] is a list of [M] rows of [N]
    entries and a [Vector<float, M>] is an [M] x 1 matrix.  Products, sums
    and transposes are the textbook ones over binary32, each entry of a
    product being accumulated left to right starting from zero.  An entry
    read outside the matrix is given as zero and a write outside it does
    nothing; the unit only uses indices inside its matrices. *)
Definition Matrix : Type := list (list float32).
Definition Vector : Type := Matrix.

Module Mat.
Definition get (A : Matrix) (i j : nat) : float32 :=
  match A !! i with
  | Some row => match row !! j with Some v => v | None => F32.zero end
  | None => F32.zero
  end.

Definition set (A : Matrix) (i j : nat) (v : float32) : Matrix :=
  alter (fun row => <[j := v]> row) i A.

Definition make (m n : nat) (f : nat -> nat -> float32) : Matrix :=
  map (fun i => map (fun j => f i j) (seq 0 n)) (seq 0 m).

Definition setZero (m n : nat) : Matrix := make m n (fun _ _ => F32.zero).

Definition add (m n : nat) (A B : Matrix) : Matrix :=
  make m n (fun i j => F32.add (get A i j) (get B i j)).

Definition sub (m n : nat) (A B : Matrix) : Matrix :=
  make m n (fun i j => F32.sub (get A i j) (get B i j)).

Definition transpose (m n : nat) (A : Matrix) : Matrix :=
  make n m (fun i j => get A j i).

(** [A] is [m] x [n], [B] is [n] x [p]. *)
Definition mul (m n p : nat) (A B : Matrix) : Matrix :=
  make m p (fun i k =>
    fold_left (fun acc j => F32.add acc (F32.mul (get A i j) (get B j k)))
              (seq 0 n) F32.zero).
End Mat.

(** Vector element [v(i)]. *)
Definition vget (v : Vector) (i : nat) : float32 := Mat.get v i 0.
Definition vset (v : Vector) (i : nat) (a : float32) : Vector := Mat.set v i 0 a.

(** ** Messages and collaborating blocks *)

(** Modelled from the spec: the sample record of the sensor transport,
    "{timestamp, 3 position components, covariance diagonal entries with a
    marker for not populated}"; the message type [vehicle_odometry] is
    generated outside the unit's file.  These are the fields the unit
    reads; [pose_covariance] is the array in which the three variances
    sit. *)
Module Odom.
Record vehicle_odometry : Type := mk {
  timestamp : Z;
  x : float32;
  y : float32;
  z : float32;
  pose_covariance : list float32
}.

(** Reading [pose_covariance[i]]; the indices used by the unit are inside
    the array, a read outside it is given as NaN. *)
Definition cov_at (o : vehicle_odometry) (i : nat) : float32 :=
  nth i (pose_covariance o) S754_nan.
End Odom.

Definition vehicle_odometry : Type := Odom.vehicle_odometry.

(** Modelled from the spec: the diagnostics sink receives "a fixed-width
    innovation vector and its variances"; the message type
    [ekf2_innovations] is generated outside the unit's file.  These are the
    two arrays the unit writes, six entries each. *)
Record ekf2_innovations : Type := mkInnov {
  vel_pos_innov : list float32;
  vel_pos_innov_var : list float32
}.

Definition set_vel_pos_innov (i : nat) (v : float32) (m : ekf2_innovations)
  : ekf2_innovations :=
  mkInnov (<[i := v]> (vel_pos_innov m)) (vel_pos_innov_var m).

Definition set_vel_pos_innov_var (i : nat) (v : float32) (m : ekf2_innovations)
  : ekf2_innovations :=
  mkInnov (vel_pos_innov m) (<[i := v]> (vel_pos_innov_var m)).

(** Modelled from the spec: the running statistics accumulator
    ([_visionStats], a block whose class is declared outside the unit's
    file) "tracks count/mean/standard-deviation"; [update(y)] adds a sample,
    [reset()] clears all state and [getCount()] is 0 after [reset()].  The
    mean and the deviation are carried by the running sum and sum of
    squares. *)
Record BlockStats : Type := mkStats {
  _sum : Vector;
  _sumSq : Vector;
  _count : nat
}.

(** Modelled from the spec: the measurement vector has "dimension n_y,
    here 3: spatial x/y/z"; the constant is declared in the estimator's
    header, outside the unit's file. *)
Definition n_y_vision : nat := 3.

Module Stats.
(** Modelled from the spec: the methods of the accumulator, see
    [BlockStats]. *)
Definition emult (u v : Vector) : Vector :=
  Mat.make n_y_vision 1 (fun i _ => F32.mul (vget u i) (vget v i)).

Definition update (u : Vector) (b : BlockStats) : BlockStats :=
  mkStats (Mat.add n_y_vision 1 (_sum b) u)
          (Mat.add n_y_vision 1 (_sumSq b) (emult u u))
          (S (_count b)).

Definition reset (b : BlockStats) : BlockStats :=
  mkStats (Mat.setZero n_y_vision 1) (Mat.setZero n_y_vision 1) 0.

Definition getCount (b : BlockStats) : Z := Z.of_nat (_count b).
End Stats.

(** Modelled from the spec: the origin anchor, "external collaborator
    state"; the structure belongs to the geo library, outside the unit's
    file, and the unit reads only [init_done]. *)
Record map_projection_reference_s : Type := mkMapRef {
  init_done : bool;
  lat_rad : float64;
  lon_rad : float64
}.

(** ** The estimator fields used by the unit

    The members of [BlockLocalPositionEstimator] that [vision.cpp] reads or
    writes, under their own names.  The class is declared in the
    estimator's header, outside the unit's file: times are [uint64_t] in
    microseconds, the two health bitmasks are [uint16_t], the delay line
    [_xDelay] is seen through its accessor [get(i)], and the subscription,
    the publication and the parameters are seen through their values. *)

Record Estimator : Type := mkEstimator {
  _sub_visual_odom : vehicle_odometry;
  _vision_xy_stddev : float32;
  _vision_z_stddev : float32;
  _vision_delay : float32;
  _timeStamp : Z;
  _xDelay : Z -> Vector;
  _vision_eph : float32;
  _vision_epv : float32;
  _vision_xy_valid : bool;
  _vision_z_valid : bool;
  _time_last_vision_p : Z;
  _visionStats : BlockStats;
  _sensorTimeout : Z;
  _sensorFault : Z;
  _x : Vector;
  _P : Matrix;
  _pub_innov : ekf2_innovations;
  _ref_lat : float64;
  _ref_lon : float64;
  _ref_alt : float32;
  _global_ref_timestamp : Z;
  _is_global_cov_init : bool;
  _map_ref : map_projection_reference_s;
  _time_origin : Z;
  _altOriginInitialized : bool;
  _altOriginGlobal : bool;
  _altOrigin : float32
}.

Definition set_vision_eph (v : float32) (s : Estimator) : Estimator :=
  mkEstimator (_sub_visual_odom s) (_vision_xy_stddev s)
    (_vision_z_stddev s) (_vision_delay s) (_timeStamp s) (_xDelay s) v
    (_vision_epv s) (_vision_xy_valid s) (_vision_z_valid s)
    (_time_last_vision_p s) (_visionStats s) (_sensorTimeout s)
    (_sensorFault s) (_x s) (_P s) (_pub_innov s) (_ref_lat s) (_ref_lon s)
    (_ref_alt s) (_global_ref_timestamp s) (_is_global_cov_init s)
    (_map_ref s) (_time_origin s) (_altOriginInitialized s)
    (_altOriginGlobal s) (_altOrigin s).

Definition set_vision_epv (v : float32) (s : Estimator) : Estimator :=
  mkEstimator (_sub_visual_odom s) (_vision_xy_stddev s)
    (_vision_z_stddev s) (_vision_delay s) (_timeStamp s) (_xDelay s)
    (_vision_eph s) v (_vision_xy_valid s) (_vision_z_valid s)
    (_time_last_vision_p s) (_visionStats s) (_sensorTimeout s)
    (_sensorFault s) (_x s) (_P s) (_pub_innov s) (_ref_lat s) (_ref_lon s)
    (_ref_alt s) (_global_ref_timestamp s) (_is_global_cov_init s)
    (_map_ref s) (_time_origin s) (_altOriginInitialized s)
    (_altOriginGlobal s) (_altOrigin s).

Definition set_vision_xy_valid (v : bool) (s : Estimator) : Estimator :=
  mkEstimator (_sub_visual_odom s) (_vision_xy_stddev s)
    (_vision_z_stddev s) (_vision_delay s) (_timeStamp s) (_xDelay s)
    (_vision_eph s) (_vision_epv s) v (_vision_z_valid s)
    (_time_last_vision_p s) (_visionStats s) (_sensorTimeout s)
    (_sensorFault s) (_x s) (_P s) (_pub_innov s) (_ref_lat s) (_ref_lon s)
    (_ref_alt s) (_global_ref_timestamp s) (_is_global_cov_init s)
    (_map_ref s) (_time_origin s) (_altOriginInitialized s)
    (_altOriginGlobal s) (_altOrigin s).

Definition set_vision_z_valid (v : bool) (s : Estimator) : Estimator :=
  mkEstimator (_sub_visual_odom s) (_vision_xy_stddev s)
    (_vision_z_stddev s) (_vision_delay s) (_timeStamp s) (_xDelay s)
    (_vision_eph s) (_vision_epv s) (_vision_xy_valid s) v
    (_time_last_vision_p s) (_visionStats s) (_sensorTimeout s)
    (_sensorFault s) (_x s) (_P s) (_pub_innov s) (_ref_lat s) (_ref_lon s)
    (_ref_alt s) (_global_ref_timestamp s) (_is_global_cov_init s)
    (_map_ref s) (_time_origin s) (_altOriginInitialized s)
    (_altOriginGlobal s) (_altOrigin s).

Definition set_time_last_vision_p (v : Z) (s : Estimator) : Estimator :=
  mkEstimator (_sub_visual_odom s) (_vision_xy_stddev s)
    (_vision_z_stddev s) (_vision_delay s) (_timeStamp s) (_xDelay s)
    (_vision_eph s) (_vision_epv s) (_vision_xy_valid s) (_vision_z_valid s)
    v (_visionStats s) (_sensorTimeout s) (_sensorFault s) (_x s) (_P s)
    (_pub_innov s) (_ref_lat s) (_ref_lon s) (_ref_alt s)
    (_global_ref_timestamp s) (_is_global_cov_init s) (_map_ref s)
    (_time_origin s) (_altOriginInitialized s) (_altOriginGlobal s)
    (_altOrigin s).

Definition set_visionStats (v : BlockStats) (s : Estimator) : Estimator :=
  mkEstimator (_sub_visual_odom s) (_vision_xy_stddev s)
    (_vision_z_stddev s) (_vision_delay s) (_timeStamp s) (_xDelay s)
    (_vision_eph s) (_vision_epv s) (_vision_xy_valid s) (_vision_z_valid s)
    (_time_last_vision_p s) v (_sensorTimeout s) (_sensorFault s) (_x s)
    (_P s) (_pub_innov s) (_ref_lat s) (_ref_lon s) (_ref_alt s)
    (_global_ref_timestamp s) (_is_global_cov_init s) (_map_ref s)
    (_time_origin s) (_altOriginInitialized s) (_altOriginGlobal s)
    (_altOrigin s).

Definition set_sensorTimeout (v : Z) (s : Estimator) : Estimator :=
  mkEstimator (_sub_visual_odom s) (_vision_xy_stddev s)
    (_vision_z_stddev s) (_vision_delay s) (_timeStamp s) (_xDelay s)
    (_vision_eph s) (_vision_epv s) (_vision_xy_valid s) (_vision_z_valid s)
    (_time_last_vision_p s) (_visionStats s) v (_sensorFault s) (_x s)
    (_P s) (_pub_innov s) (_ref_lat s) (_ref_lon s) (_ref_alt s)
    (_global_ref_timestamp s) (_is_global_cov_init s) (_map_ref s)
    (_time_origin s) (_altOriginInitialized s) (_altOriginGlobal s)
    (_altOrigin s).

Definition set_sensorFault (v : Z) (s : Estimator) : Estimator :=
  mkEstimator (_sub_visual_odom s) (_vision_xy_stddev s)
    (_vision_z_stddev s) (_vision_delay s) (_timeStamp s) (_xDelay s)
    (_vision_eph s) (_vision_epv s) (_vision_xy_valid s) (_vision_z_valid s)
    (_time_last_vision_p s) (_visionStats s) (_sensorTimeout s) v (_x s)
    (_P s) (_pub_innov s) (_ref_lat s) (_ref_lon s) (_ref_alt s)
    (_global_ref_timestamp s) (_is_global_cov_init s) (_map_ref s)
    (_time_origin s) (_altOriginInitialized s) (_altOriginGlobal s)
    (_altOrigin s).

Definition set_x (v : Vector) (s : Estimator) : Estimator :=
  mkEstimator (_sub_visual_odom s) (_vision_xy_stddev s)
    (_vision_z_stddev s) (_vision_delay s) (_timeStamp s) (_xDelay s)
    (_vision_eph s) (_vision_epv s) (_vision_xy_valid s) (_vision_z_valid s)
    (_time_last_vision_p s) (_visionStats s) (_sensorTimeout s)
    (_sensorFault s) v (_P s) (_pub_innov s) (_ref_lat s) (_ref_lon s)
    (_ref_alt s) (_global_ref_timestamp s) (_is_global_cov_init s)
    (_map_ref s) (_time_origin s) (_altOriginInitialized s)
    (_altOriginGlobal s) (_altOrigin s).

Definition set_P (v : Matrix) (s : Estimator) : Estimator :=
  mkEstimator (_sub_visual_odom s) (_vision_xy_stddev s)
    (_vision_z_stddev s) (_vision_delay s) (_timeStamp s) (_xDelay s)
    (_vision_eph s) (_vision_epv s) (_vision_xy_valid s) (_vision_z_valid s)
    (_time_last_vision_p s) (_visionStats s) (_sensorTimeout s)
    (_sensorFault s) (_x s) v (_pub_innov s) (_ref_lat s) (_ref_lon s)
    (_ref_alt s) (_global_ref_timestamp s) (_is_global_cov_init s)
    (_map_ref s) (_time_origin s) (_altOriginInitialized s)
    (_altOriginGlobal s) (_altOrigin s).

Definition set_pub_innov (v : ekf2_innovations) (s : Estimator) : Estimator :=
  mkEstimator (_sub_visual_odom s) (_vision_xy_stddev s)
    (_vision_z_stddev s) (_vision_delay s) (_timeStamp s) (_xDelay s)
    (_vision_eph s) (_vision_epv s) (_vision_xy_valid s) (_vision_z_valid s)
    (_time_last_vision_p s) (_visionStats s) (_sensorTimeout s)
    (_sensorFault s) (_x s) (_P s) v (_ref_lat s) (_ref_lon s) (_ref_alt s)
    (_global_ref_timestamp s) (_is_global_cov_init s) (_map_ref s)
    (_time_origin s) (_altOriginInitialized s) (_altOriginGlobal s)
    (_altOrigin s).

Definition set_ref_lat (v : float64) (s : Estimator) : Estimator :=
  mkEstimator (_sub_visual_odom s) (_vision_xy_stddev s)
    (_vision_z_stddev s) (_vision_delay s) (_timeStamp s) (_xDelay s)
    (_vision_eph s) (_vision_epv s) (_vision_xy_valid s) (_vision_z_valid s)
    (_time_last_vision_p s) (_visionStats s) (_sensorTimeout s)
    (_sensorFault s) (_x s) (_P s) (_pub_innov s) v (_ref_lon s)
    (_ref_alt s) (_global_ref_timestamp s) (_is_global_cov_init s)
    (_map_ref s) (_time_origin s) (_altOriginInitialized s)
    (_altOriginGlobal s) (_altOrigin s).

Definition set_ref_lon (v : float64) (s : Estimator) : Estimator :=
  mkEstimator (_sub_visual_odom s) (_vision_xy_stddev s)
    (_vision_z_stddev s) (_vision_delay s) (_timeStamp s) (_xDelay s)
    (_vision_eph s) (_vision_epv s) (_vision_xy_valid s) (_vision_z_valid s)
    (_time_last_vision_p s) (_visionStats s) (_sensorTimeout s)
    (_sensorFault s) (_x s) (_P s) (_pub_innov s) (_ref_lat s) v
    (_ref_alt s) (_global_ref_timestamp s) (_is_global_cov_init s)
    (_map_ref s) (_time_origin s) (_altOriginInitialized s)
    (_altOriginGlobal s) (_altOrigin s).

Definition set_ref_alt (v : float32) (s : Estimator) : Estimator :=
  mkEstimator (_sub_visual_odom s) (_vision_xy_stddev s)
    (_vision_z_stddev s) (_vision_delay s) (_timeStamp s) (_xDelay s)
    (_vision_eph s) (_vision_epv s) (_vision_xy_valid s) (_vision_z_valid s)
    (_time_last_vision_p s) (_visionStats s) (_sensorTimeout s)
    (_sensorFault s) (_x s) (_P s) (_pub_innov s) (_ref_lat s) (_ref_lon s)
    v (_global_ref_timestamp s) (_is_global_cov_init s) (_map_ref s)
    (_time_origin s) (_altOriginInitialized s) (_altOriginGlobal s)
    (_altOrigin s).

Definition set_global_ref_timestamp (v : Z) (s : Estimator) : Estimator :=
  mkEstimator (_sub_visual_odom s) (_vision_xy_stddev s)
    (_vision_z_stddev s) (_vision_delay s) (_timeStamp s) (_xDelay s)
    (_vision_eph s) (_vision_epv s) (_vision_xy_valid s) (_vision_z_valid s)
    (_time_last_vision_p s) (_visionStats s) (_sensorTimeout s)
    (_sensorFault s) (_x s) (_P s) (_pub_innov s) (_ref_lat s) (_ref_lon s)
    (_ref_alt s) v (_is_global_cov_init s) (_map_ref s) (_time_origin s)
    (_altOriginInitialized s) (_altOriginGlobal s) (_altOrigin s).

Definition set_is_global_cov_init (v : bool) (s : Estimator) : Estimator :=
  mkEstimator (_sub_visual_odom s) (_vision_xy_stddev s)
    (_vision_z_stddev s) (_vision_delay s) (_timeStamp s) (_xDelay s)
    (_vision_eph s) (_vision_epv s) (_vision_xy_valid s) (_vision_z_valid s)
    (_time_last_vision_p s) (_visionStats s) (_sensorTimeout s)
    (_sensorFault s) (_x s) (_P s) (_pub_innov s) (_ref_lat s) (_ref_lon s)
    (_ref_alt s) (_global_ref_timestamp s) v (_map_ref s) (_time_origin s)
    (_altOriginInitialized s) (_altOriginGlobal s) (_altOrigin s).

Definition set_map_ref (v : map_projection_reference_s) (s : Estimator) : Estimator :=
  mkEstimator (_sub_visual_odom s) (_vision_xy_stddev s)
    (_vision_z_stddev s) (_vision_delay s) (_timeStamp s) (_xDelay s)
    (_vision_eph s) (_vision_epv s) (_vision_xy_valid s) (_vision_z_valid s)
    (_time_last_vision_p s) (_visionStats s) (_sensorTimeout s)
    (_sensorFault s) (_x s) (_P s) (_pub_innov s) (_ref_lat s) (_ref_lon s)
    (_ref_alt s) (_global_ref_timestamp s) (_is_global_cov_init s) v
    (_time_origin s) (_altOriginInitialized s) (_altOriginGlobal s)
    (_altOrigin s).

Definition set_time_origin (v : Z) (s : Estimator) : Estimator :=
  mkEstimator (_sub_visual_odom s) (_vision_xy_stddev s)
    (_vision_z_stddev s) (_vision_delay s) (_timeStamp s) (_xDelay s)
    (_vision_eph s) (_vision_epv s) (_vision_xy_valid s) (_vision_z_valid s)
    (_time_last_vision_p s) (_visionStats s) (_sensorTimeout s)
    (_sensorFault s) (_x s) (_P s) (_pub_innov s) (_ref_lat s) (_ref_lon s)
    (_ref_alt s) (_global_ref_timestamp s) (_is_global_cov_init s)
    (_map_ref s) v (_altOriginInitialized s) (_altOriginGlobal s)
    (_altOrigin s).

Definition set_altOriginInitialized (v : bool) (s : Estimator) : Estimator :=
  mkEstimator (_sub_visual_odom s) (_vision_xy_stddev s)
    (_vision_z_stddev s) (_vision_delay s) (_timeStamp s) (_xDelay s)
    (_vision_eph s) (_vision_epv s) (_vision_xy_valid s) (_vision_z_valid s)
    (_time_last_vision_p s) (_visionStats s) (_sensorTimeout s)
    (_sensorFault s) (_x s) (_P s) (_pub_innov s) (_ref_lat s) (_ref_lon s)
    (_ref_alt s) (_global_ref_timestamp s) (_is_global_cov_init s)
    (_map_ref s) (_time_origin s) v (_altOriginGlobal s) (_altOrigin s).

Definition set_altOriginGlobal (v : bool) (s : Estimator) : Estimator :=
  mkEstimator (_sub_visual_odom s) (_vision_xy_stddev s)
    (_vision_z_stddev s) (_vision_delay s) (_timeStamp s) (_xDelay s)
    (_vision_eph s) (_vision_epv s) (_vision_xy_valid s) (_vision_z_valid s)
    (_time_last_vision_p s) (_visionStats s) (_sensorTimeout s)
    (_sensorFault s) (_x s) (_P s) (_pub_innov s) (_ref_lat s) (_ref_lon s)
    (_ref_alt s) (_global_ref_timestamp s) (_is_global_cov_init s)
    (_map_ref s) (_time_origin s) (_altOriginInitialized s) v (_altOrigin s).

Definition set_altOrigin (v : float32) (s : Estimator) : Estimator :=
  mkEstimator (_sub_visual_odom s) (_vision_xy_stddev s)
    (_vision_z_stddev s) (_vision_delay s) (_timeStamp s) (_xDelay s)
    (_vision_eph s) (_vision_epv s) (_vision_xy_valid s) (_vision_z_valid s)
    (_time_last_vision_p s) (_visionStats s) (_sensorTimeout s)
    (_sensorFault s) (_x s) (_P s) (_pub_innov s) (_ref_lat s) (_ref_lon s)
    (_ref_alt s) (_global_ref_timestamp s) (_is_global_cov_init s)
    (_map_ref s) (_time_origin s) (_altOriginInitialized s)
    (_altOriginGlobal s) v.

(** A new cycle: the next sample and the current time. *)
Definition set_sub_visual_odom (v : vehicle_odometry) (s : Estimator)
  : Estimator :=
  mkEstimator v (_vision_xy_stddev s) (_vision_z_stddev s) (_vision_delay s)
    (_timeStamp s) (_xDelay s) (_vision_eph s) (_vision_epv s)
    (_vision_xy_valid s) (_vision_z_valid s) (_time_last_vision_p s)
    (_visionStats s) (_sensorTimeout s) (_sensorFault s) (_x s) (_P s)
    (_pub_innov s) (_ref_lat s) (_ref_lon s) (_ref_alt s)
    (_global_ref_timestamp s) (_is_global_cov_init s) (_map_ref s)
    (_time_origin s) (_altOriginInitialized s) (_altOriginGlobal s)
    (_altOrigin s).

Definition set_timeStamp (v : Z) (s : Estimator) : Estimator :=
  mkEstimator (_sub_visual_odom s) (_vision_xy_stddev s)
    (_vision_z_stddev s) (_vision_delay s) v (_xDelay s) (_vision_eph s)
    (_vision_epv s) (_vision_xy_valid s) (_vision_z_valid s)
    (_time_last_vision_p s) (_visionStats s) (_sensorTimeout s)
    (_sensorFault s) (_x s) (_P s) (_pub_innov s) (_ref_lat s) (_ref_lon s)
    (_ref_alt s) (_global_ref_timestamp s) (_is_global_cov_init s)
    (_map_ref s) (_time_origin s) (_altOriginInitialized s)
    (_altOriginGlobal s) (_altOrigin s).

(** ** Constants of the unit *)

Definition OK : Z := 0.

(** required number of samples for sensor to initialize *)
Definition REQ_VISION_INIT_COUNT : Z := 1.

(** 0.5 s, in microseconds *)
Definition VISION_TIMEOUT : Z := 500000.

(** [100.0f] *)
Definition EP_MAX_STD_DEV : float32 := F32.of_Z 100.

(** The literal [1e-6f]: the binary32 nearest to 1/1000000. *)
Definition f32_1em6 : float32 := F32.div (F32.of_Z 1) (F32.of_Z 1000000).

(** Modelled from the spec: the rows of the measurement vector, "spatial
    x/y/z"; the enumeration is declared in the estimator's header, outside
    the unit's file. *)
Definition Y_vision_x : nat := 0.
Definition Y_vision_y : nat := 1.
Definition Y_vision_z : nat := 2.

(** ** What the unit takes from the rest of the firmware

    Constants, tables and routines that [vision.cpp] uses and that are
    declared in the estimator's header, the message definitions, the matrix
    library and the geo library.  They are parameters of the development. *)
Class Firmware : Type := {
  (** dimension of the state vector and the rows of the position states *)
  n_x : nat;
  X_x : nat;
  X_y : nat;
  X_z : nat;
  (** this sensor's bit in the health bitmasks *)
  SENSOR_VISION : Z;
  (** chi-square thresholds by measurement dimension *)
  BETA_TABLE : nat -> float32;
  (** indices of the variances in [pose_covariance] *)
  COVARIANCE_MATRIX_X_VARIANCE : nat;
  COVARIANCE_MATRIX_Y_VARIANCE : nat;
  COVARIANCE_MATRIX_Z_VARIANCE : nat;
  (** [inv<float, n_y_vision>] of the matrix library *)
  inv : Matrix -> Matrix;
  (** Modelled from the spec: the Delay Buffer accessor "fails if age
      exceeds retained horizon" and "this unit only reads it"; the result
      is the return code and the index written through [periods]. *)
  getDelayPeriods : Estimator -> float32 -> Z * Z;
  (** the geo library; [globallocalconverter_getref] receives the current
      contents of its three output locations and returns the new ones *)
  globallocalconverter_getref :
    float64 -> float64 -> float32 -> float64 * float64 * float32;
  globallocalconverter_initialized : bool;
  map_projection_init :
    map_projection_reference_s -> float64 -> float64 ->
    map_projection_reference_s
}.

(** ** Notifications sent to the telemetry log *)

Inductive Severity : Type := Info | Critical.

Inductive Message : Type :=
| vision_position_init (stats : BlockStats)
| global_origin_init (lat lon : float64) (alt : float32)
| vision_data_invalid (eph epv : float32)
| vision_position_fault (beta : float32)
| vision_position_OK
| vision_position_timeout.

Definition Notification : Type := (Severity * Message)%type.

(** ** The estimator monad: state and emitted notifications *)

Definition LPE (A : Type) : Type :=
  Estimator -> A * Estimator * list Notification.

Definition ret {A : Type} (a : A) : LPE A := fun s => (a, s, []).

Definition bind {A B : Type} (m : LPE A) (k : A -> LPE B) : LPE B :=
  fun s =>
    let '(a, s1, l1) := m s in
    let '(b, s2, l2) := k a s1 in
    (b, s2, l1 ++ l2).

Definition gets {A : Type} (f : Estimator -> A) : LPE A :=
  fun s => (f s, s, []).

Definition modify (f : Estimator -> Estimator) : LPE unit :=
  fun s => (tt, f s, []).

Definition mavlink_and_console_log_info (m : Message) : LPE unit :=
  fun s => (tt, s, [(Info, m)]).

Definition mavlink_log_critical (m : Message) : LPE unit :=
  fun s => (tt, s, [(Critical, m)]).

Declare Scope lpe_scope.
Delimit Scope lpe_scope with lpe.
Notation "x <- m ;; k" := (bind m (fun x => k))
  (at level 100, m at next level, right associativity) : lpe_scope.
Notation "m ;; k" := (bind m (fun _ => k))
  (at level 100, right associativity) : lpe_scope.

(** [for (size_t i = lo; i < lo + n; i++) body(i)] *)
Fixpoint for_range (lo n : nat) (body : nat -> LPE unit) : LPE unit :=
  match n with
  | O => ret tt
  | S n' => bind (body lo) (fun _ => for_range (S lo) n' body)
  end.

(** The state and the notifications a command leaves behind. *)
Definition result {A : Type} (r : A * Estimator * list Notification) : A :=
  fst (fst r).
Definition state_of {A : Type} (r : A * Estimator * list Notification)
  : Estimator := snd (fst r).
Definition log_of {A : Type} (r : A * Estimator * list Notification)
  : list Notification := snd r.

(** Testing and changing one sensor's bit of a [uint16_t] bitmask. *)
Definition bit_is_set (mask bit : Z) : bool := negb (Z.land mask bit =? 0).
Definition bit_set (mask bit : Z) : Z := wrap16 (Z.lor mask bit).
Definition bit_clear (mask bit : Z) : Z := wrap16 (Z.land mask (Z.lnot bit)).

(** ** The unit *)

Section Vision.
Context {fw : Firmware}.
Local Open Scope lpe_scope.

Definition visionMeasure (y : Vector) : LPE (Z * Vector) :=
  odom <- gets _sub_visual_odom ;;
  let x_variance := COVARIANCE_MATRIX_X_VARIANCE in
  let y_variance := COVARIANCE_MATRIX_Y_VARIANCE in
  let z_variance := COVARIANCE_MATRIX_Z_VARIANCE in
  (if PX4_ISFINITE (Odom.cov_at odom x_variance) then
     (* check if the vision data is valid based on the covariances *)
     modify (set_vision_eph
               (F32.sqrtf (F32.fmaxf (Odom.cov_at odom x_variance)
                                     (Odom.cov_at odom y_variance)))) ;;
     modify (set_vision_epv (F32.sqrtf (Odom.cov_at odom z_variance))) ;;
     modify (fun s =>
       set_vision_xy_valid (F32.le (_vision_eph s) EP_MAX_STD_DEV) s) ;;
     modify (fun s =>
       set_vision_z_valid (F32.le (_vision_epv s) EP_MAX_STD_DEV) s)
   else
     (* if we don't have covariances, assume every reading *)
     modify (set_vision_xy_valid true) ;;
     modify (set_vision_z_valid true)) ;;
  xy_valid <- gets _vision_xy_valid ;;
  z_valid <- gets _vision_z_valid ;;
  if negb xy_valid || negb z_valid then
    modify (set_time_last_vision_p (Odom.timestamp odom)) ;;
    ret (-1, y)
  else
    modify (set_time_last_vision_p (Odom.timestamp odom)) ;;
    if PX4_ISFINITE (Odom.x odom) then
      let y := Mat.setZero n_y_vision 1 in
      let y := vset y Y_vision_x (Odom.x odom) in
      let y := vset y Y_vision_y (Odom.y odom) in
      let y := vset y Y_vision_z (Odom.z odom) in
      modify (fun s => set_visionStats (Stats.update y (_visionStats s)) s) ;;
      ret (OK, y)
    else
      ret (-1, y).

Definition visionInit : LPE unit :=
  (* measure *)
  m <- visionMeasure (Mat.setZero n_y_vision 1) ;;
  let '(rc, _) := m in
  if negb (rc =? OK) then
    modify (fun s => set_visionStats (Stats.reset (_visionStats s)) s)
  else
    stats <- gets _visionStats ;;
    if REQ_VISION_INIT_COUNT <? Stats.getCount stats then
      mavlink_and_console_log_info (vision_position_init stats) ;;
      modify (fun s =>
        set_sensorTimeout (bit_clear (_sensorTimeout s) SENSOR_VISION) s) ;;
      modify (fun s =>
        set_sensorFault (bit_clear (_sensorFault s) SENSOR_VISION) s) ;;
      (* get reference for global position *)
      modify (fun s =>
        let '(lat, lon, alt) :=
          globallocalconverter_getref (_ref_lat s) (_ref_lon s) (_ref_alt s) in
        set_ref_alt alt (set_ref_lon lon (set_ref_lat lat s))) ;;
      modify (fun s => set_global_ref_timestamp (_timeStamp s) s) ;;
      modify (set_is_global_cov_init globallocalconverter_initialized) ;;
      map_ref <- gets _map_ref ;;
      cov_init <- gets _is_global_cov_init ;;
      (if negb (init_done map_ref) && cov_init then
         (* initialize global origin using the visual estimator reference *)
         lat <- gets _ref_lat ;;
         lon <- gets _ref_lon ;;
         alt <- gets _ref_alt ;;
         mavlink_and_console_log_info (global_origin_init lat lon alt) ;;
         modify (fun s =>
           set_map_ref (map_projection_init (_map_ref s) (_ref_lat s)
                                            (_ref_lon s)) s) ;;
         (* set timestamp when origin was set to current time *)
         modify (fun s => set_time_origin (_timeStamp s) s)
       else ret tt) ;;
      alt_init <- gets _altOriginInitialized ;;
      if negb alt_init then
        modify (set_altOriginInitialized true) ;;
        modify (set_altOriginGlobal true) ;;
        modify (fun s =>
          set_altOrigin (if globallocalconverter_initialized
                         then _ref_alt s else F32.zero) s)
      else ret tt
    else ret tt.

(** vision measurement matrix, measures position *)
Definition vision_C : Matrix :=
  let C := Mat.setZero n_y_vision n_x in
  let C := Mat.set C Y_vision_x X_x F32.one in
  let C := Mat.set C Y_vision_y X_y F32.one in
  let C := Mat.set C Y_vision_z X_z F32.one in
  C.

(** noise matrix: use std dev from vision data if available *)
Definition vision_R (s : Estimator) : Matrix :=
  let R := Mat.setZero n_y_vision n_y_vision in
  let R :=
    if F32.gt (_vision_eph s) (_vision_xy_stddev s) then
      let R := Mat.set R Y_vision_x Y_vision_x
                 (F32.mul (_vision_eph s) (_vision_eph s)) in
      Mat.set R Y_vision_y Y_vision_y
        (F32.mul (_vision_eph s) (_vision_eph s))
    else
      let R := Mat.set R Y_vision_x Y_vision_x
                 (F32.mul (_vision_xy_stddev s) (_vision_xy_stddev s)) in
      Mat.set R Y_vision_y Y_vision_y
        (F32.mul (_vision_xy_stddev s) (_vision_xy_stddev s)) in
  let R :=
    if F32.gt (_vision_epv s) (_vision_z_stddev s) then
      Mat.set R Y_vision_z Y_vision_z
        (F32.mul (_vision_epv s) (_vision_epv s))
    else
      Mat.set R Y_vision_z Y_vision_z
        (F32.mul (_vision_z_stddev s) (_vision_z_stddev s)) in
  R.

(** The delay handed to [getDelayPeriods]: the configured delay when it is
    positive, otherwise the measurement delay in seconds, not below zero. *)
Definition vision_delay_arg (s : Estimator) : float32 :=
  let vision_delay :=
    F32.mul
      (F32.of_Z (wrap64 (_timeStamp s - Odom.timestamp (_sub_visual_odom s))))
      f32_1em6 in
  let vision_delay :=
    if F32.lt vision_delay F32.zero then F32.zero else vision_delay in
  if F32.gt (_vision_delay s) F32.zero then _vision_delay s else vision_delay.

(** residual [r = y - C * x0] *)
Definition residual (y0 x0 : Vector) : Matrix :=
  Mat.sub n_y_vision 1 y0 (Mat.mul n_y_vision n_x 1 vision_C x0).

(** residual covariance [S = C * P * C' + R] *)
Definition residual_cov (P R : Matrix) : Matrix :=
  Mat.add n_y_vision n_y_vision
    (Mat.mul n_y_vision n_x n_y_vision
       (Mat.mul n_y_vision n_x n_x vision_C P)
       (Mat.transpose n_y_vision n_x vision_C))
    R.

(** [beta = (r' * (S_I * r))(0, 0)] *)
Definition fault_beta (r S_I : Matrix) : float32 :=
  Mat.get
    (Mat.mul 1 n_y_vision 1 (Mat.transpose n_y_vision 1 r)
       (Mat.mul n_y_vision n_y_vision 1 S_I r))
    0 0.

(** publish innovations (the two loops of [visionCorrect]) *)
Definition publish_innovations (r S : Matrix) : LPE unit :=
  for_range 0 3 (fun i =>
    modify (fun s =>
      set_pub_innov (set_vel_pos_innov i (Mat.get r i 0) (_pub_innov s)) s) ;;
    modify (fun s =>
      set_pub_innov
        (set_vel_pos_innov_var i (Mat.get S i i) (_pub_innov s)) s)) ;;
  for_range 3 3 (fun i =>
    modify (fun s =>
      set_pub_innov (set_vel_pos_innov i F32.zero (_pub_innov s)) s) ;;
    modify (fun s =>
      set_pub_innov (set_vel_pos_innov_var i F32.one (_pub_innov s)) s)).

(** fault detection (the [if (beta > BETA_TABLE[n_y_vision])] statement of
    [visionCorrect]) *)
Definition fault_detection (beta : float32) : LPE unit :=
  fault <- gets _sensorFault ;;
  if F32.gt beta (BETA_TABLE n_y_vision) then
    if negb (bit_is_set fault SENSOR_VISION) then
      mavlink_and_console_log_info (vision_position_fault beta) ;;
      modify (fun s =>
        set_sensorFault (bit_set (_sensorFault s) SENSOR_VISION) s)
    else ret tt
  else if bit_is_set fault SENSOR_VISION then
    modify (fun s =>
      set_sensorFault (bit_clear (_sensorFault s) SENSOR_VISION) s) ;;
    mavlink_and_console_log_info vision_position_OK
  else ret tt.

(** kalman filter correction if no fault (the last statement of
    [visionCorrect]) *)
Definition kalman_correction (r S_I : Matrix) : LPE unit :=
  fault <- gets _sensorFault ;;
  if negb (bit_is_set fault SENSOR_VISION) then
    P <- gets _P ;;
    let K :=
      Mat.mul n_x n_y_vision n_y_vision
        (Mat.mul n_x n_x n_y_vision P (Mat.transpose n_y_vision n_x vision_C))
        S_I in
    let dx := Mat.mul n_x n_y_vision 1 K r in
    modify (fun s => set_x (Mat.add n_x 1 (_x s) dx) s) ;;
    modify (fun s =>
      set_P (Mat.sub n_x n_x (_P s)
               (Mat.mul n_x n_x n_x (Mat.mul n_x n_y_vision n_x K vision_C)
                  (_P s))) s)
  else ret tt.

Definition visionCorrect : LPE unit :=
  (* measure *)
  m <- visionMeasure (Mat.setZero n_y_vision 1) ;;
  let '(rc, y0) := m in
  if negb (rc =? OK) then
    eph <- gets _vision_eph ;;
    epv <- gets _vision_epv ;;
    mavlink_and_console_log_info (vision_data_invalid eph epv)
  else
    (* noise matrix *)
    R <- gets vision_R ;;
    (* vision delayed x *)
    delay <- gets vision_delay_arg ;;
    d <- gets (fun s => getDelayPeriods s delay) ;;
    let '(rc, i_hist) := d in
    if rc <? 0 then ret tt
    else
      x0 <- gets (fun s => _xDelay s i_hist) ;;
      P <- gets _P ;;
      (* residual *)
      let r := residual y0 x0 in
      (* residual covariance *)
      let S := residual_cov P R in
      publish_innovations r S ;;
      (* residual covariance, (inverse) *)
      let S_I := inv S in
      let beta := fault_beta r S_I in
      fault_detection beta ;;
      kalman_correction r S_I.

Definition visionCheckTimeout : LPE unit :=
  ts <- gets _timeStamp ;;
  last <- gets _time_last_vision_p ;;
  if VISION_TIMEOUT <? wrap64 (ts - last) then
    timeout <- gets _sensorTimeout ;;
    if negb (bit_is_set timeout SENSOR_VISION) then
      modify (fun s =>
        set_sensorTimeout (bit_set (_sensorTimeout s) SENSOR_VISION) s) ;;
      modify (fun s => set_visionStats (Stats.reset (_visionStats s)) s) ;;
      mavlink_log_critical vision_position_timeout
    else ret tt
  else ret tt.

End Vision.

(** ** Observing one correction cycle

    The quantities that [visionCorrect] computes on its way, as functions
    of the state in which it is called. *)

Section Cycle.
Context {fw : Firmware}.

(** the measurement step, entered with a default-constructed [y] *)
Definition measured (s : Estimator) : Z * Vector * Estimator * list Notification :=
  visionMeasure (Mat.setZero n_y_vision 1) s.

Definition measure_accepted (s : Estimator) : bool :=
  fst (result (measured s)) =? OK.

(** the answer of [getDelayPeriods] in this cycle *)
Definition delay_lookup (s : Estimator) : Z * Z :=
  let s1 := state_of (measured s) in
  getDelayPeriods s1 (vision_delay_arg s1).

Definition delay_within_horizon (s : Estimator) : bool :=
  negb (fst (delay_lookup s) <? 0).

(** a cycle that takes neither early return *)
Definition completed (s : Estimator) : bool :=
  measure_accepted s && delay_within_horizon s.

Definition cycle_R (s : Estimator) : Matrix := vision_R (state_of (measured s)).

Definition cycle_r (s : Estimator) : Matrix :=
  residual (snd (result (measured s)))
           (_xDelay (state_of (measured s)) (snd (delay_lookup s))).

Definition cycle_S (s : Estimator) : Matrix :=
  residual_cov (_P (state_of (measured s))) (cycle_R s).

Definition cycle_beta (s : Estimator) : float32 :=
  fault_beta (cycle_r s) (inv (cycle_S s)).

(** [beta > BETA_TABLE[n_y_vision]] in this cycle *)
Definition beta_exceeds (s : Estimator) : bool :=
  F32.gt (cycle_beta s) (BETA_TABLE n_y_vision).

Definition vision_fault (s : Estimator) : bool :=
  bit_is_set (_sensorFault s) SENSOR_VISION.

Definition vision_timeout (s : Estimator) : bool :=
  bit_is_set (_sensorTimeout s) SENSOR_VISION.

(** The three variances of the sample. *)
Definition x_variance (s : Estimator) : float32 :=
  Odom.cov_at (_sub_visual_odom s) COVARIANCE_MATRIX_X_VARIANCE.
Definition y_variance (s : Estimator) : float32 :=
  Odom.cov_at (_sub_visual_odom s) COVARIANCE_MATRIX_Y_VARIANCE.
Definition z_variance (s : Estimator) : float32 :=
  Odom.cov_at (_sub_visual_odom s) COVARIANCE_MATRIX_Z_VARIANCE.

(** All the covariance entries that the unit reads are finite. *)
Definition covariance_finite (s : Estimator) : bool :=
  PX4_ISFINITE (x_variance s) && PX4_ISFINITE (y_variance s)
  && PX4_ISFINITE (z_variance s).

(** The estimator at the start of its next cycle: a new sample has arrived
    and the clock has moved. *)
Definition next_cycle (o : vehicle_odometry) (now : Z) (s : Estimator)
  : Estimator :=
  set_timeStamp now (set_sub_visual_odom o s).

(** A run of correction cycles, given by the states in which
    [visionCorrect] is entered: every cycle completes, and the vision fault
    bit that a cycle finds is the one its predecessor left. *)
Fixpoint chained (fault : bool) (ss : list Estimator) : Prop :=
  match ss with
  | [] => True
  | s :: rest =>
      completed s = true /\ vision_fault s = fault /\
      chained (vision_fault (state_of (visionCorrect s))) rest
  end.

(** All the notifications of a run, in order. *)
Definition notifications (ss : list Estimator) : list Notification :=
  concat (map (fun s => log_of (visionCorrect s)) ss).

(** The initialisation notification is among those emitted. *)
Definition init_notified (l : list Notification) : bool :=
  existsb (fun n => match n with
                    | (Info, vision_position_init _) => true
                    | _ => false
                    end) l.

(** What is left of a cycle once the measurement is accepted and the delay
    is within the horizon. *)
Definition after_measure (s : Estimator) : LPE unit :=
  bind (publish_innovations (cycle_r s) (cycle_S s)) (fun _ =>
  bind (fault_detection (cycle_beta s)) (fun _ =>
  kalman_correction (cycle_r s) (inv (cycle_S s)))).

(** The state once the innovations are published, and the fault-detection
    step run from it. *)
Definition published (s : Estimator) : Estimator :=
  state_of (publish_innovations (cycle_r s) (cycle_S s) (state_of (measured s))).

Definition detected (s : Estimator) : unit * Estimator * list Notification :=
  fault_detection (cycle_beta s) (published s).

(** The fields that [visionMeasure] does not write. *)
Definition measure_frame (s s' : Estimator) : Prop :=
  _sub_visual_odom s' = _sub_visual_odom s /\
  _vision_xy_stddev s' = _vision_xy_stddev s /\
  _vision_z_stddev s' = _vision_z_stddev s /\
  _vision_delay s' = _vision_delay s /\
  _timeStamp s' = _timeStamp s /\
  _xDelay s' = _xDelay s /\
  _sensorTimeout s' = _sensorTimeout s /\
  _sensorFault s' = _sensorFault s /\
  _x s' = _x s /\
  _P s' = _P s /\
  _pub_innov s' = _pub_innov s.

End Cycle.

(** Number of changes of value along [b :: l]. *)
Fixpoint transitions (b : bool) (l : list bool) : nat :=
  match l with
  | [] => 0
  | c :: rest => (if Bool.eqb b c then 0 else 1) + transitions c rest
  end.

(** The noise matrix in the words of the specification: diagonal, the
    larger of the reported deviation and the configured floor, squared. *)
Definition noise_covariance (eph epv xy_stddev z_stddev : float32) : Matrix :=
  let h := F32.fmaxf eph xy_stddev in
  let v := F32.fmaxf epv z_stddev in
  [ [F32.mul h h; F32.zero; F32.zero];
    [F32.zero; F32.mul h h; F32.zero];
    [F32.zero; F32.zero; F32.mul v v] ].

(** ** A bench configuration

    A concrete firmware and concrete estimator states on which the unit
    runs by computation. *)
Module Bench.

Definition inv_diag3 (S : Matrix) : Matrix :=
  Mat.make 3 3 (fun i j =>
    if Nat.eqb i j then F32.div F32.one (Mat.get S i i) else F32.zero).

Definition firmware : Firmware := {|
  n_x := 10;
  X_x := 0;
  X_y := 1;
  X_z := 2;
  SENSOR_VISION := 32;
  BETA_TABLE := fun n => F32.of_Z (nth n [0; 9; 12; 14; 16; 18; 20] 0);
  COVARIANCE_MATRIX_X_VARIANCE := 0;
  COVARIANCE_MATRIX_Y_VARIANCE := 6;
  COVARIANCE_MATRIX_Z_VARIANCE := 11;
  inv := inv_diag3;
  getDelayPeriods := fun _ delay =>
    if F32.gt delay F32.one then (-1, 9) else (OK, 0);
  globallocalconverter_getref := fun lat lon alt => (lat, lon, alt);
  globallocalconverter_initialized := false;
  map_projection_init := fun _ lat lon => mkMapRef true lat lon
|}.

(** A sample taken at [ts] at position [(px, py, pz)] with the variances
    [(vx, vy, vz)] on the diagonal of its covariance. *)
Definition sample (ts px py pz : Z) (vx vy vz : float32) : vehicle_odometry :=
  Odom.mk ts (F32.of_Z px) (F32.of_Z py) (F32.of_Z pz)
    (<[11%nat := vz]> (<[6%nat := vy]> (<[0%nat := vx]>
       (replicate 21 F32.zero)))).

Definition identity (n : nat) : Matrix :=
  Mat.make n n (fun i j => if Nat.eqb i j then F32.one else F32.zero).

(** The estimator after start-up: every sensor timed out, no fault, empty
    statistics, and a first sample at (1, 2, 3). *)
Definition boot : Estimator :=
  mkEstimator
    (sample 1000000 1 2 3 F32.one F32.one F32.one)
    F32.one F32.one F32.zero
    1000100
    (fun _ => Mat.setZero 10 1)
    F32.zero F32.zero false false
    0
    (mkStats (Mat.setZero 3 1) (Mat.setZero 3 1) 0)
    65535 0
    (Mat.setZero 10 1) (identity 10)
    (mkInnov (replicate 6 F32.zero) (replicate 6 F32.zero))
    F32.zero F32.zero F32.zero
    0 false (mkMapRef false F32.zero F32.zero) 0
    false false F32.zero.

(** The same estimator once initialised: the timeout bit of this sensor
    is clear. *)
Definition active : Estimator := set_sensorTimeout (65535 - 32) boot.

(** One correction cycle on the bench firmware. *)
Definition correct (s : Estimator) : Estimator :=
  state_of (@visionCorrect firmware s).

(** Five cycles in a row: two samples near the estimate, two far from it,
    one near again. *)
Definition c1 : Estimator := active.
Definition c2 : Estimator :=
  next_cycle (sample 1100000 1 2 3 F32.one F32.one F32.one) 1100100
             (correct c1).
Definition c3 : Estimator :=
  next_cycle (sample 1200000 10 0 0 F32.one F32.one F32.one) 1200100
             (correct c2).
Definition c4 : Estimator :=
  next_cycle (sample 1300000 10 0 0 F32.one F32.one F32.one) 1300100
             (correct c3).
Definition c5 : Estimator :=
  next_cycle (sample 1400000 1 0 0 F32.one F32.one F32.one) 1400100
             (correct c4).

(** A sample far from the estimate: the innovation gate trips. *)
Definition outlier : Estimator :=
  next_cycle (sample 2000000 10 0 0 F32.one F32.one F32.one) 2000100 active.

(** A sample that is two seconds old, beyond the bench delay horizon. *)
Definition late : Estimator := set_timeStamp 3000000 active.

(** Variances on the validity ceiling: the deviation is exactly 100. *)
Definition boundary : Estimator :=
  set_sub_visual_odom
    (sample 1000000 1 2 3 (F32.of_Z 10000) F32.one (F32.of_Z 10000)) active.

(** A sample whose covariance is not populated: the first variance is NaN. *)
Definition no_covariance : Estimator :=
  set_sub_visual_odom (sample 1000000 1 2 3 S754_nan S754_nan S754_nan) active.

(** A sample with horizontal variances but no vertical one. *)
Definition z_unknown : Estimator :=
  set_sub_visual_odom (sample 1000000 1 2 3 F32.one F32.one S754_nan) active.

(** No sample for two seconds. *)
Definition silent : Estimator := set_timeStamp 2000000 active.

End Bench.

(** ** Further observers of the unit *)

(** A value that is a NaN or does not carry a minus sign. *)
Definition unsigned_or_nan (a : float32) : bool :=
  match a with
  | S754_zero _ | S754_nan => true
  | S754_infinity sg | S754_finite sg _ _ => negb sg
  end.

Section Correction.
Context {fw : Firmware}.

(** The gain [K = P * C' * S_I] of a cycle entered in state [s]. *)
Definition cycle_K (s : Estimator) : Matrix :=
  Mat.mul n_x n_y_vision n_y_vision
    (Mat.mul n_x n_x n_y_vision (_P s) (Mat.transpose n_y_vision n_x vision_C))
    (inv (cycle_S s)).

(** [_x + K * r] and [_P - K * C * _P] *)
Definition corrected_x (s : Estimator) : Vector :=
  Mat.add n_x 1 (_x s) (Mat.mul n_x n_y_vision 1 (cycle_K s) (cycle_r s)).

Definition corrected_P (s : Estimator) : Matrix :=
  Mat.sub n_x n_x (_P s)
    (Mat.mul n_x n_x n_x (Mat.mul n_x n_y_vision n_x (cycle_K s) vision_C)
       (_P s)).

(** The measurement delay in seconds as first computed by [visionCorrect]:
    the unsigned difference of the two times, scaled. *)
Definition vision_delay_raw (s : Estimator) : float32 :=
  F32.mul
    (F32.of_Z (wrap64 (_timeStamp s - Odom.timestamp (_sub_visual_odom s))))
    f32_1em6.

(** What [globallocalconverter_getref] hands back in state [s]. *)
Definition reference (s : Estimator) : float64 * float64 * float32 :=
  globallocalconverter_getref (_ref_lat s) (_ref_lon s) (_ref_alt s).

(** The global-origin notification is among those emitted. *)
Definition origin_notified (l : list Notification) : bool :=
  existsb (fun n => match n with
                    | (Info, global_origin_init _ _ _) => true
                    | _ => false
                    end) l.

End Correction.

(** More bench states. *)
Module Probe.

(** The bench firmware with an initialised global converter whose
    reference is (47, 8, 400). *)
Definition firmware_with_origin : Firmware := {|
  n_x := 10;
  X_x := 0;
  X_y := 1;
  X_z := 2;
  SENSOR_VISION := 32;
  BETA_TABLE := fun n => F32.of_Z (nth n [0; 9; 12; 14; 16; 18; 20] 0);
  COVARIANCE_MATRIX_X_VARIANCE := 0;
  COVARIANCE_MATRIX_Y_VARIANCE := 6;
  COVARIANCE_MATRIX_Z_VARIANCE := 11;
  inv := Bench.inv_diag3;
  getDelayPeriods := fun _ delay =>
    if F32.gt delay F32.one then (-1, 9) else (OK, 0);
  globallocalconverter_getref := fun _ _ _ =>
    (F32.of_Z 47, F32.of_Z 8, F32.of_Z 400);
  globallocalconverter_initialized := true;
  map_projection_init := fun _ lat lon => mkMapRef true lat lon
|}.

(** A sample whose x is a number and whose y is NaN. *)
Definition nan_y : Estimator :=
  set_sub_visual_odom
    (Odom.mk 1000000 (F32.of_Z 1) S754_nan (F32.of_Z 3)
       (Odom.pose_covariance
          (Bench.sample 1000000 1 2 3 F32.one F32.one F32.one)))
    Bench.active.

(** The last sample seen is stamped 100 microseconds ahead of the clock. *)
Definition ahead : Estimator := set_time_last_vision_p 1000200 Bench.active.

(** The last sample seen is exactly 0.5 s old. *)
Definition half_second : Estimator :=
  set_time_last_vision_p 500100 Bench.active.

(** The estimator after one accepted sample during initialisation. *)
Definition one_sample : Estimator :=
  state_of (@visionInit Bench.firmware Bench.boot).

(** The same, with a global origin already established. *)
Definition origin_set : Estimator :=
  set_map_ref (mkMapRef true F32.zero F32.zero) one_sample.

(** The same, with an altitude origin already established. *)
Definition alt_set : Estimator :=
  set_altOrigin (F32.of_Z 5) (set_altOriginInitialized true one_sample).

(** A sample rejected for its uncertainty: the variances are 40000. *)
Definition too_uncertain : Estimator :=
  set_sub_visual_odom
    (Bench.sample 1000000 1 2 3 (F32.of_Z 40000) F32.one F32.one)
    Bench.active.

End Probe.

(** * Properties *)

(** ** Binary32 order and bitmask arithmetic *)

Lemma SFcompare_antisym (a b : spec_float) :
  SFcompare b a = option_map CompOpp (SFcompare a b).
Proof.
  destruct a as [sa | sa | | sa ma ea], b as [sb | sb | | sb mb eb];
    try destruct sa; try destruct sb; try reflexivity; simpl.
  - rewrite (Z.compare_antisym ea eb).
    destruct (ea ?= eb); simpl; try reflexivity.
    rewrite (Pos.compare_cont_antisym ma mb Eq). reflexivity.
  - rewrite (Z.compare_antisym ea eb).
    destruct (ea ?= eb); simpl; try reflexivity.
    rewrite (Pos.compare_cont_antisym ma mb Eq). reflexivity.
Qed.

Lemma SFcompare_refl (a : spec_float) :
  F32.is_nan a = false -> SFcompare a a = Some Eq.
Proof.
  destruct a as [sa | sa | | sa ma ea]; try destruct sa;
    try reflexivity; try discriminate; simpl; intros _.
  all: rewrite Z.compare_refl, Pos.compare_cont_refl; reflexivity.
Qed.

Lemma F32_le_refl (a : float32) : F32.is_nan a = false -> F32.le a a = true.
Proof. intros H. unfold F32.le, SFleb. now rewrite SFcompare_refl. Qed.

Lemma F32_lt_le (a b : float32) : F32.lt a b = true -> F32.le a b = true.
Proof.
  unfold F32.lt, F32.le, SFltb, SFleb.
  destruct (SFcompare a b) as [[]|]; congruence.
Qed.

Lemma F32_not_lt_le (a b : float32) :
  F32.is_nan a = false -> F32.is_nan b = false ->
  F32.lt a b = false -> F32.le b a = true.
Proof.
  intros Ha Hb. unfold F32.lt, F32.le, SFltb, SFleb.
  rewrite (SFcompare_antisym a b).
  destruct (SFcompare a b) as [[]|] eqn:E; simpl; try congruence.
  destruct a as [sa | sa | | sa ma ea], b as [sb | sb | | sb mb eb];
    simpl in *; try discriminate;
    try destruct sa; try destruct sb; discriminate.
Qed.

(** On numbers, [fmaxf] is the maximum for the order [<=] of binary32. *)
Lemma fmaxf_is_max (a b : float32) :
  F32.is_nan a = false -> F32.is_nan b = false ->
  (F32.fmaxf a b = a \/ F32.fmaxf a b = b) /\
  F32.le a (F32.fmaxf a b) = true /\ F32.le b (F32.fmaxf a b) = true.
Proof.
  intros Ha Hb. unfold F32.fmaxf. rewrite Ha, Hb.
  destruct (F32.lt a b) eqn:E.
  - split; [now right|].
    split; [now apply F32_lt_le | now apply F32_le_refl].
  - split; [now left|].
    split; [now apply F32_le_refl | now apply F32_not_lt_le].
Qed.

Lemma F32_lt_asym (a b : float32) : F32.lt a b = true -> F32.lt b a = false.
Proof.
  unfold F32.lt, SFltb. rewrite (SFcompare_antisym a b).
  destruct (SFcompare a b) as [[]|]; simpl; congruence.
Qed.

Lemma F32_lt_nan_r (a : float32) : F32.lt a S754_nan = false.
Proof. destruct a; reflexivity. Qed.

(** Two numbers that compare equal have the same square (they are equal,
    or zeros of opposite signs). *)
Lemma F32_eq_square (a b : float32) :
  F32.is_nan a = false -> F32.is_nan b = false ->
  F32.lt a b = false -> F32.lt b a = false ->
  F32.mul a a = F32.mul b b.
Proof.
  intros Ha Hb. unfold F32.lt, SFltb. rewrite (SFcompare_antisym a b).
  destruct a as [sa | sa | | sa ma ea], b as [sb | sb | | sb mb eb];
    try discriminate; try destruct sa; try destruct sb;
    simpl; try discriminate; try reflexivity.
  - destruct (Z.compare_spec ea eb); simpl; try discriminate.
    change (Pos.compare_cont Eq ma mb) with (Pos.compare ma mb).
    destruct (Pos.compare_spec ma mb); simpl; try discriminate.
    subst. reflexivity.
  - destruct (Z.compare_spec ea eb); simpl; try discriminate.
    change (Pos.compare_cont Eq ma mb) with (Pos.compare ma mb).
    destruct (Pos.compare_spec ma mb); simpl; try discriminate.
    subst. reflexivity.
Qed.

(** The selection made by [visionCorrect] is the square of the larger of
    the two, as long as the floor is a number. *)
Lemma square_of_larger (a b : float32) :
  F32.is_nan b = false ->
  (if F32.gt a b then F32.mul a a else F32.mul b b) =
  F32.mul (F32.fmaxf a b) (F32.fmaxf a b).
Proof.
  intros Hb. unfold F32.fmaxf, F32.gt. fold (F32.lt b a). rewrite Hb.
  destruct (F32.is_nan a) eqn:Ha.
  - destruct a; try discriminate. now rewrite F32_lt_nan_r.
  - destruct (F32.lt b a) eqn:E1.
    + now rewrite (F32_lt_asym _ _ E1).
    + destruct (F32.lt a b) eqn:E2; [reflexivity|].
      symmetry. now apply F32_eq_square.
Qed.

Lemma isfinite_not_nan (a : float32) :
  F32.isfinite a = true -> F32.is_nan a = false.
Proof. destruct a; simpl; congruence. Qed.

Lemma bit_clear_is_clear (m b : Z) : bit_is_set (bit_clear m b) b = false.
Proof.
  unfold bit_is_set, bit_clear, wrap16, wrap.
  rewrite <- Z.land_ones by lia.
  replace (Z.land (Z.land (Z.land m (Z.lnot b)) (Z.ones 16)) b) with 0;
    [reflexivity|].
  symmetry. apply Z.bits_inj'. intros n Hn.
  rewrite !Z.land_spec, Z.lnot_spec, Z.bits_0 by lia.
  destruct (Z.testbit b n); simpl; rewrite ?andb_false_r; reflexivity.
Qed.

Lemma bit_set_is_set (m b : Z) :
  0 < b < 2 ^ 16 -> bit_is_set (bit_set m b) b = true.
Proof.
  intros Hb. unfold bit_is_set, bit_set, wrap16, wrap.
  rewrite <- Z.land_ones by lia.
  replace (Z.land (Z.land (Z.lor m b) (Z.ones 16)) b) with b.
  - destruct (Z.eqb_spec b 0); [lia | reflexivity].
  - apply Z.bits_inj'. intros n Hn.
    rewrite !Z.land_spec, Z.lor_spec.
    destruct (Z.testbit b n) eqn:E; [|now rewrite andb_false_r].
    rewrite orb_true_r. simpl. rewrite andb_true_r.
    destruct (Z_lt_ge_dec n 16).
    + rewrite Z.ones_spec_low by lia. reflexivity.
    + rewrite Z.bits_above_log2 in E; [discriminate | lia |].
      apply Z.lt_le_trans with 16; [|lia]. apply Z.log2_lt_pow2; lia.
Qed.

Section Properties.
Context {fw : Firmware}.

(** ** The measurement step *)

Ltac run_measure :=
  unfold measured, visionMeasure, bind, gets, modify, ret,
    result, state_of, log_of;
  repeat match goal with
         | |- context [if ?b then _ else _] => destruct b eqn:?; cbn
         end.

Lemma visionMeasure_frame (y0 : Vector) (s : Estimator) :
  measure_frame s (state_of (visionMeasure y0 s)).
Proof. run_measure; repeat split. Qed.

Lemma visionMeasure_log (y0 : Vector) (s : Estimator) :
  log_of (visionMeasure y0 s) = [].
Proof. run_measure; reflexivity. Qed.

Lemma visionMeasure_last_seen (y0 : Vector) (s : Estimator) :
  _time_last_vision_p (state_of (visionMeasure y0 s)) =
  Odom.timestamp (_sub_visual_odom s).
Proof. run_measure; reflexivity. Qed.

Lemma visionMeasure_result (y0 : Vector) (s : Estimator) :
  let r := visionMeasure y0 s in
  (fst (result r) = OK /\
   _visionStats (state_of r) = Stats.update (snd (result r)) (_visionStats s))
  \/ (fst (result r) = -1 /\ snd (result r) = y0 /\
      _visionStats (state_of r) = _visionStats s).
Proof. cbv zeta. run_measure; auto. Qed.

Lemma visionMeasure_known (y0 : Vector) (s : Estimator) :
  PX4_ISFINITE (x_variance s) = true ->
  let s' := state_of (visionMeasure y0 s) in
  _vision_eph s' = F32.sqrtf (F32.fmaxf (x_variance s) (y_variance s)) /\
  _vision_epv s' = F32.sqrtf (z_variance s) /\
  _vision_xy_valid s' = F32.le (_vision_eph s') EP_MAX_STD_DEV /\
  _vision_z_valid s' = F32.le (_vision_epv s') EP_MAX_STD_DEV.
Proof.
  unfold x_variance, y_variance, z_variance. intros H. cbv zeta.
  unfold visionMeasure, bind, gets, modify, ret, result, state_of, log_of.
  rewrite H. cbn.
  repeat match goal with
         | |- context [if ?b then _ else _] => destruct b eqn:?; cbn
         end; auto.
Qed.

Lemma visionMeasure_unknown (y0 : Vector) (s : Estimator) :
  PX4_ISFINITE (x_variance s) = false ->
  let r := visionMeasure y0 s in
  _vision_eph (state_of r) = _vision_eph s /\
  _vision_epv (state_of r) = _vision_epv s /\
  _vision_xy_valid (state_of r) = true /\
  _vision_z_valid (state_of r) = true /\
  (fst (result r) = OK <-> PX4_ISFINITE (Odom.x (_sub_visual_odom s)) = true).
Proof.
  unfold x_variance. intros H. cbv zeta.
  unfold visionMeasure, bind, gets, modify, ret, result, state_of, log_of.
  rewrite H. cbn.
  destruct (PX4_ISFINITE (Odom.x _)); cbn; repeat split; auto; discriminate.
Qed.

(** ** The paths through [visionCorrect] *)

Lemma visionCorrect_completed (s : Estimator) :
  completed s = true ->
  visionCorrect s = after_measure s (state_of (measured s)).
Proof.
  unfold completed, measure_accepted, delay_within_horizon, after_measure.
  unfold cycle_beta, cycle_S, cycle_r, cycle_R, delay_lookup, measured.
  pose proof (visionMeasure_log (Mat.setZero n_y_vision 1) s) as Hlog.
  unfold visionCorrect. unfold bind at 1.
  destruct (visionMeasure (Mat.setZero n_y_vision 1) s) as [[[rc y1] s1] l1].
  unfold result, state_of, log_of in *. cbn [fst snd] in *. subst l1.
  intros [Hrc Hd]%andb_true_iff. rewrite Hrc. cbn [negb].
  unfold bind at 1 2 3. unfold gets at 1 2 3.
  destruct (getDelayPeriods s1 (vision_delay_arg s1)) as [rc2 ih].
  cbn [fst snd] in *. apply negb_true_iff in Hd. rewrite Hd.
  unfold bind at 1 2. unfold gets at 1 2.
  destruct (bind _ _ s1) as [[u s2] l2]. reflexivity.
Qed.

Lemma visionCorrect_rejected (s : Estimator) :
  measure_accepted s = false ->
  visionCorrect s =
    (tt, state_of (measured s),
     [(Info, vision_data_invalid (_vision_eph (state_of (measured s)))
                                 (_vision_epv (state_of (measured s))))]).
Proof.
  unfold measure_accepted, measured.
  pose proof (visionMeasure_log (Mat.setZero n_y_vision 1) s) as Hlog.
  unfold visionCorrect. unfold bind at 1.
  destruct (visionMeasure (Mat.setZero n_y_vision 1) s) as [[[rc y1] s1] l1].
  unfold result, state_of, log_of in *. cbn [fst snd] in *. subst l1.
  intros Hrc. rewrite Hrc. reflexivity.
Qed.

Lemma visionCorrect_delay_old (s : Estimator) :
  measure_accepted s = true -> delay_within_horizon s = false ->
  visionCorrect s = (tt, state_of (measured s), []).
Proof.
  unfold measure_accepted, delay_within_horizon, delay_lookup, measured.
  pose proof (visionMeasure_log (Mat.setZero n_y_vision 1) s) as Hlog.
  unfold visionCorrect. unfold bind at 1.
  destruct (visionMeasure (Mat.setZero n_y_vision 1) s) as [[[rc y1] s1] l1].
  unfold result, state_of, log_of in *. cbn [fst snd] in *. subst l1.
  intros Hrc Hd. rewrite Hrc. cbn [negb].
  unfold bind at 1 2 3. unfold gets at 1 2 3.
  destruct (getDelayPeriods s1 (vision_delay_arg s1)) as [rc2 ih].
  cbn [fst snd] in *. apply negb_false_iff in Hd. rewrite Hd. reflexivity.
Qed.

Lemma publish_innovations_frame (r S : Matrix) (s : Estimator) :
  let out := publish_innovations r S s in
  log_of out = [] /\ _x (state_of out) = _x s /\ _P (state_of out) = _P s /\
  _sensorFault (state_of out) = _sensorFault s.
Proof. cbv zeta. repeat split. Qed.

Lemma publish_innovations_slots (r S : Matrix) (s : Estimator) :
  length (vel_pos_innov (_pub_innov s)) = 6%nat ->
  length (vel_pos_innov_var (_pub_innov s)) = 6%nat ->
  let m := _pub_innov (state_of (publish_innovations r S s)) in
  vel_pos_innov m =
    [Mat.get r 0 0; Mat.get r 1 0; Mat.get r 2 0;
     F32.zero; F32.zero; F32.zero] /\
  vel_pos_innov_var m =
    [Mat.get S 0 0; Mat.get S 1 1; Mat.get S 2 2; F32.one; F32.one; F32.one].
Proof.
  intros H1 H2. cbn.
  destruct (vel_pos_innov (_pub_innov s))
    as [|a0 [|a1 [|a2 [|a3 [|a4 [|a5 [|]]]]]]]; try discriminate.
  destruct (vel_pos_innov_var (_pub_innov s))
    as [|b0 [|b1 [|b2 [|b3 [|b4 [|b5 [|]]]]]]]; try discriminate.
  split; reflexivity.
Qed.

(** The fault detector, case by case. *)
Lemma fault_detection_cases (beta : float32) (s : Estimator) :
  fault_detection beta s =
  match F32.gt beta (BETA_TABLE n_y_vision), vision_fault s with
  | true, false =>
      (tt, set_sensorFault (bit_set (_sensorFault s) SENSOR_VISION) s,
       [(Info, vision_position_fault beta)])
  | false, true =>
      (tt, set_sensorFault (bit_clear (_sensorFault s) SENSOR_VISION) s,
       [(Info, vision_position_OK)])
  | _, _ => (tt, s, [])
  end.
Proof.
  unfold fault_detection, vision_fault, bind, gets.
  destruct (F32.gt beta _), (bit_is_set _ _); reflexivity.
Qed.

Lemma fault_detection_frame (beta : float32) (s : Estimator) :
  let out := state_of (fault_detection beta s) in
  _x out = _x s /\ _P out = _P s /\ _pub_innov out = _pub_innov s.
Proof.
  cbv zeta. rewrite fault_detection_cases.
  destruct (F32.gt beta _), (vision_fault s); repeat split.
Qed.

Lemma kalman_correction_fault (r S_I : Matrix) (s : Estimator) :
  vision_fault s = true -> kalman_correction r S_I s = (tt, s, []).
Proof.
  unfold vision_fault, kalman_correction, bind, gets. intros ->. reflexivity.
Qed.

Lemma kalman_correction_frame (r S_I : Matrix) (s : Estimator) :
  let out := kalman_correction r S_I s in
  log_of out = [] /\ _sensorFault (state_of out) = _sensorFault s /\
  _pub_innov (state_of out) = _pub_innov s.
Proof.
  cbv zeta. unfold kalman_correction, bind, gets.
  destruct (negb _); repeat split.
Qed.

Lemma bind_run {A B : Type} (m : LPE A) (k : A -> LPE B) (s : Estimator) :
  bind m k s =
  (result (k (result (m s)) (state_of (m s))),
   state_of (k (result (m s)) (state_of (m s))),
   log_of (m s) ++ log_of (k (result (m s)) (state_of (m s)))).
Proof.
  unfold bind, result, state_of, log_of.
  destruct (m s) as [[a s1] l1]. cbn [fst snd].
  destruct (k a s1) as [[b s2] l2]. reflexivity.
Qed.

(** A completed cycle: measure, publish, detect, correct. *)
Lemma visionCorrect_run (s : Estimator) :
  completed s = true ->
  visionCorrect s =
  (tt,
   state_of (kalman_correction (cycle_r s) (inv (cycle_S s))
               (state_of (detected s))),
   log_of (detected s)).
Proof.
  intros Hc. rewrite (visionCorrect_completed s Hc).
  unfold detected, published, after_measure.
  rewrite !bind_run.
  destruct (publish_innovations_frame (cycle_r s) (cycle_S s)
              (state_of (measured s))) as (-> & _).
  match goal with
  | |- context [log_of (kalman_correction ?r ?si ?st)] =>
      destruct (kalman_correction_frame r si st) as (-> & _)
  end.
  rewrite app_nil_r. cbn [app].
  match goal with |- (?u, _, _) = _ => destruct u end.
  reflexivity.
Qed.

Lemma visionCorrect_state (s : Estimator) :
  completed s = true ->
  state_of (visionCorrect s) =
  state_of (kalman_correction (cycle_r s) (inv (cycle_S s))
              (state_of (detected s))).
Proof. intros Hc. now rewrite (visionCorrect_run s Hc). Qed.

Lemma visionCorrect_notes (s : Estimator) :
  completed s = true -> log_of (visionCorrect s) = log_of (detected s).
Proof. intros Hc. now rewrite (visionCorrect_run s Hc). Qed.

End Properties.

(** * The claims of the specification *)

Section Claims.
Context {fw : Firmware}.

(** ** Helper facts *)

Lemma published_fault (s : Estimator) : vision_fault (published s) = vision_fault s.
Proof.
  unfold vision_fault, published.
  destruct (publish_innovations_frame (cycle_r s) (cycle_S s)
              (state_of (measured s))) as (_ & _ & _ & ->).
  destruct (visionMeasure_frame (Mat.setZero n_y_vision 1) s)
    as (_ & _ & _ & _ & _ & _ & _ & Hf & _).
  unfold measured. now rewrite Hf.
Qed.

Lemma visionCorrect_fault_after (s : Estimator) :
  completed s = true ->
  vision_fault (state_of (visionCorrect s)) = vision_fault (state_of (detected s)).
Proof.
  intros Hc. rewrite (visionCorrect_state s Hc). unfold vision_fault.
  destruct (kalman_correction_frame (cycle_r s) (inv (cycle_S s))
              (state_of (detected s))) as (_ & -> & _).
  reflexivity.
Qed.

(** One completed cycle: the notification follows the change of the bit,
    and the bit follows [beta]. *)
Lemma visionCorrect_fault_edge (s : Estimator) :
  0 < SENSOR_VISION < 2 ^ 16 ->
  completed s = true ->
  log_of (visionCorrect s) =
    match beta_exceeds s, vision_fault s with
    | true, false => [(Info, vision_position_fault (cycle_beta s))]
    | false, true => [(Info, vision_position_OK)]
    | _, _ => []
    end /\
  vision_fault (state_of (visionCorrect s)) = beta_exceeds s.
Proof.
  intros HV Hc.
  rewrite (visionCorrect_notes s Hc), (visionCorrect_fault_after s Hc).
  pose proof (published_fault s) as Hp.
  unfold detected. rewrite fault_detection_cases. rewrite Hp.
  fold (beta_exceeds s).
  destruct (beta_exceeds s) eqn:Eb, (vision_fault s) eqn:Ef;
    unfold log_of, state_of; cbn [fst snd]; split; try reflexivity;
    try exact Hp.
  - apply bit_set_is_set, HV.
  - apply bit_clear_is_clear.
Qed.

Lemma run_notifications (ss : list Estimator) :
  0 < SENSOR_VISION < 2 ^ 16 ->
  forall b, chained b ss ->
  length (notifications ss) = transitions b (map beta_exceeds ss).
Proof.
  intros HV. induction ss as [|s rest IH]; intros b Hch; [reflexivity|].
  destruct Hch as (Hc & Hf & Hrest).
  destruct (visionCorrect_fault_edge s HV Hc) as [Hl Hb].
  unfold notifications in *. cbn [map concat transitions].
  rewrite length_app, (IH _ Hrest), Hb, Hl, Hf.
  destruct (beta_exceeds s), b; reflexivity.
Qed.

Lemma visionInit_rejected (s : Estimator) :
  measure_accepted s = false ->
  visionInit s =
  (tt, set_visionStats (Stats.reset (_visionStats (state_of (measured s))))
         (state_of (measured s)), []).
Proof.
  unfold measure_accepted, measured.
  pose proof (visionMeasure_log (Mat.setZero n_y_vision 1) s) as Hlog.
  unfold visionInit. unfold bind at 1.
  destruct (visionMeasure (Mat.setZero n_y_vision 1) s) as [[[rc y1] s1] l1].
  unfold result, state_of, log_of in *. cbn [fst snd] in *. subst l1.
  intros Hrc. rewrite Hrc. reflexivity.
Qed.

Lemma visionInit_accepted (s : Estimator) :
  measure_accepted s = true ->
  _visionStats (state_of (visionInit s)) =
    _visionStats (state_of (measured s)) /\
  if REQ_VISION_INIT_COUNT <?
     Stats.getCount (_visionStats (state_of (measured s))) then
    (exists rest,
       log_of (visionInit s) =
       (Info, vision_position_init (_visionStats (state_of (measured s))))
         :: rest) /\
    _sensorTimeout (state_of (visionInit s)) =
      bit_clear (_sensorTimeout s) SENSOR_VISION /\
    _sensorFault (state_of (visionInit s)) =
      bit_clear (_sensorFault s) SENSOR_VISION
  else visionInit s = (tt, state_of (measured s), []).
Proof.
  unfold measure_accepted.
  destruct (visionMeasure_frame (Mat.setZero n_y_vision 1) s)
    as (_ & _ & _ & _ & _ & _ & Ht & Hf & _).
  revert Ht Hf. unfold measured.
  pose proof (visionMeasure_log (Mat.setZero n_y_vision 1) s) as Hlog.
  remember (visionInit s) as out eqn:Eout.
  unfold visionInit in Eout. unfold bind at 1 in Eout.
  destruct (visionMeasure (Mat.setZero n_y_vision 1) s) as [[[rc y1] s1] l1].
  unfold result, state_of, log_of in *. cbn [fst snd] in *. subst l1.
  intros Ht Hf Hrc. rewrite Hrc in Eout. cbn [negb] in Eout.
  unfold bind at 1 in Eout. unfold gets at 1 in Eout.
  destruct (REQ_VISION_INIT_COUNT <? Stats.getCount (_visionStats s1));
    [|subst out; split; reflexivity].
  unfold bind, gets, modify, mavlink_and_console_log_info, ret in Eout.
  cbn [fst snd app] in Eout.
  destruct (globallocalconverter_getref _ _ _) as [[lat lon] alt].
  cbn in Eout. subst out.
  rewrite <- Ht, <- Hf.
  destruct (negb (init_done (_map_ref s1)) && globallocalconverter_initialized);
    cbn; destruct (negb (_altOriginInitialized s1)); cbn; eauto.
Qed.

Lemma visionCheckTimeout_idle (s : Estimator) :
  vision_timeout s = true -> visionCheckTimeout s = (tt, s, []).
Proof.
  unfold vision_timeout, visionCheckTimeout, bind, gets. intros H.
  destruct (VISION_TIMEOUT <? _); [|reflexivity].
  rewrite H. reflexivity.
Qed.


(** ** The measurement acquirer and validator *)

(** C5: when the variances of the sample are finite, [visionMeasure]
    computes the horizontal uncertainty as the square root of the larger of
    the x and y variances and the vertical uncertainty as the square root
    of the z variance, and an axis is valid exactly when its uncertainty is
    at most [EP_MAX_STD_DEV] (100); an uncertainty equal to the ceiling is
    valid. *)
Theorem visionMeasure_finite_covariance (y0 : Vector) (s : Estimator) :
  covariance_finite s = true ->
  let s' := state_of (visionMeasure y0 s) in
  let h := F32.fmaxf (x_variance s) (y_variance s) in
  _vision_eph s' = F32.sqrtf h /\
  _vision_epv s' = F32.sqrtf (z_variance s) /\
  (* [h] is the larger of the two variances *)
  ((h = x_variance s \/ h = y_variance s) /\
   F32.le (x_variance s) h = true /\ F32.le (y_variance s) h = true) /\
  _vision_xy_valid s' = F32.le (_vision_eph s') EP_MAX_STD_DEV /\
  _vision_z_valid s' = F32.le (_vision_epv s') EP_MAX_STD_DEV /\
  (_vision_eph s' = EP_MAX_STD_DEV -> _vision_xy_valid s' = true) /\
  (_vision_epv s' = EP_MAX_STD_DEV -> _vision_z_valid s' = true).
Proof.
  unfold covariance_finite.
  intros [[Hx Hy]%andb_true_iff Hz]%andb_true_iff. cbv zeta.
  destruct (visionMeasure_known y0 s Hx) as (He & Hv & Hxy & Hzv).
  repeat split; auto.
  - apply fmaxf_is_max; now apply isfinite_not_nan.
  - apply fmaxf_is_max; now apply isfinite_not_nan.
  - apply fmaxf_is_max; now apply isfinite_not_nan.
  - intros E. rewrite Hxy, E. reflexivity.
  - intros E. rewrite Hzv, E. reflexivity.
Qed.

(** C6, as amended: when the x variance of the sample (the one entry that
    [visionMeasure] tests) is not finite, both axes are declared valid, so
    the sample is not rejected on validity grounds: the call succeeds
    exactly when the position is finite. *)
Theorem visionMeasure_assumes_valid (y0 : Vector) (s : Estimator) :
  PX4_ISFINITE (x_variance s) = false ->
  let out := visionMeasure y0 s in
  _vision_xy_valid (state_of out) = true /\
  _vision_z_valid (state_of out) = true /\
  (fst (result out) = OK <-> PX4_ISFINITE (Odom.x (_sub_visual_odom s)) = true).
Proof.
  intros H. destruct (visionMeasure_unknown y0 s H) as (_ & _ & Hxy & Hz & Hr).
  cbv zeta. auto.
Qed.

(** C9: every call of [visionMeasure], successful or not, records the
    timestamp of the sample as the last seen one; the accumulator is
    updated with the measurement when the call succeeds, and is left
    untouched, with no measurement produced, when it fails. *)
Theorem visionMeasure_records_last_seen (y0 : Vector) (s : Estimator) :
  let out := visionMeasure y0 s in
  let rc := fst (result out) in
  let y1 := snd (result out) in
  _time_last_vision_p (state_of out) = Odom.timestamp (_sub_visual_odom s) /\
  (rc = OK \/ rc = -1) /\
  (rc = OK ->
   _visionStats (state_of out) = Stats.update y1 (_visionStats s) /\
   y1 = [[Odom.x (_sub_visual_odom s)]; [Odom.y (_sub_visual_odom s)];
         [Odom.z (_sub_visual_odom s)]]) /\
  (rc <> OK -> _visionStats (state_of out) = _visionStats s /\ y1 = y0) /\
  (_visionStats (state_of out) <> _visionStats s <-> rc = OK).
Proof.
  cbv zeta.
  assert (Hupd : forall u b, Stats.update u b <> b).
  { intros u [sm sq c] E. unfold Stats.update in E. cbn in E.
    injection E as _ _ E. lia. }
  unfold visionMeasure, bind, gets, modify, ret, result, state_of, log_of.
  repeat match goal with
         | |- context [if ?b then _ else _] => destruct b eqn:?; cbn
         end;
    repeat split; auto; try discriminate; try congruence;
    try (intros _; apply Hupd); try (intros H; exfalso; now apply H).
Qed.

(** ** Initialisation *)

(** C4: [visionInit] completes the initialisation (emits the init
    notification and clears the vision timeout and fault bits) only when
    the sample is accepted and the count of the accumulator, this sample
    included, exceeds 1; the accumulator then already held a sample before
    the call.  An accepted sample adds one to the count, a measurement
    failure leaves the count at 0, and from a count of 0 (in particular in
    the call that follows a failure) one call never completes: two accepted
    samples in a row are needed.  A call that does not complete emits
    nothing and leaves both health bitmasks as it found them; a completing
    call clears this sensor's bit in each of them. *)
Theorem visionInit_needs_two_samples (s s' : Estimator) :
  let out := visionInit s in
  (init_notified (log_of out) = true <->
   measure_accepted s = true /\
   REQ_VISION_INIT_COUNT < Stats.getCount (_visionStats (state_of out))) /\
  (init_notified (log_of out) = true ->
   vision_timeout (state_of out) = false /\
   vision_fault (state_of out) = false /\
   2 <= Stats.getCount (_visionStats (state_of out)) /\
   1 <= Stats.getCount (_visionStats s)) /\
  (measure_accepted s = true ->
   Stats.getCount (_visionStats (state_of out)) =
   Stats.getCount (_visionStats s) + 1) /\
  (measure_accepted s = false ->
   Stats.getCount (_visionStats (state_of out)) = 0 /\
   init_notified (log_of out) = false) /\
  (Stats.getCount (_visionStats s) = 0 -> init_notified (log_of out) = false) /\
  (measure_accepted s = false ->
   _visionStats s' = _visionStats (state_of out) ->
   init_notified (log_of (visionInit s')) = false) /\
  (init_notified (log_of out) = false ->
   log_of out = [] /\
   _sensorTimeout (state_of out) = _sensorTimeout s /\
   _sensorFault (state_of out) = _sensorFault s) /\
  (init_notified (log_of out) = true ->
   _sensorTimeout (state_of out) =
     bit_clear (_sensorTimeout s) SENSOR_VISION /\
   _sensorFault (state_of out) = bit_clear (_sensorFault s) SENSOR_VISION).
Proof.
  cbv zeta.
  assert (Hcount : measure_accepted s = true ->
           Stats.getCount (_visionStats (state_of (measured s))) =
           Stats.getCount (_visionStats s) + 1).
  { unfold measure_accepted, measured. intros Ha%Z.eqb_eq.
    destruct (visionMeasure_result (Mat.setZero n_y_vision 1) s)
      as [[_ ->] | [Hr _]]; [|rewrite Hr in Ha; discriminate].
    unfold Stats.getCount, Stats.update. cbn [_count]. lia. }
  assert (Hrej : forall t, measure_accepted t = false ->
            Stats.getCount (_visionStats (state_of (visionInit t))) = 0 /\
            init_notified (log_of (visionInit t)) = false).
  { intros t Hr. rewrite (visionInit_rejected t Hr). split; reflexivity. }
  assert (Hacc : forall t, measure_accepted t = true ->
            _visionStats (state_of (visionInit t)) =
              _visionStats (state_of (measured t)) /\
            (init_notified (log_of (visionInit t)) =
               (REQ_VISION_INIT_COUNT <?
                Stats.getCount (_visionStats (state_of (measured t))))) /\
            (init_notified (log_of (visionInit t)) = true ->
             vision_timeout (state_of (visionInit t)) = false /\
             vision_fault (state_of (visionInit t)) = false)).
  { intros t Ha. destruct (visionInit_accepted t Ha) as [Hs Hrest].
    split; [exact Hs|].
    destruct (REQ_VISION_INIT_COUNT <? _) eqn:E.
    - destruct Hrest as ((rest & Hl) & Ht & Hf). rewrite Hl.
      split; [reflexivity|]. intros _.
      unfold vision_timeout, vision_fault. rewrite Ht, Hf.
      split; apply bit_clear_is_clear.
    - rewrite Hrest. split; [reflexivity | discriminate]. }
  assert (Hzero : forall t, Stats.getCount (_visionStats t) = 0 ->
            init_notified (log_of (visionInit t)) = false).
  { intros t H0. destruct (measure_accepted t) eqn:Ha.
    - destruct (Hacc t Ha) as (_ & -> & _).
      unfold measure_accepted, measured in Ha. apply Z.eqb_eq in Ha.
      destruct (visionMeasure_result (Mat.setZero n_y_vision 1) t)
        as [[_ Hu] | [Hr _]]; [|rewrite Hr in Ha; discriminate].
      unfold measured. rewrite Hu.
      unfold Stats.getCount, Stats.update in *. cbn [_count].
      unfold REQ_VISION_INIT_COUNT. apply Z.ltb_ge. lia.
    - apply (Hrej t Ha). }
  assert (HN1 : init_notified (log_of (visionInit s)) = false ->
            log_of (visionInit s) = [] /\
            _sensorTimeout (state_of (visionInit s)) = _sensorTimeout s /\
            _sensorFault (state_of (visionInit s)) = _sensorFault s).
  { intros Hn.
    destruct (visionMeasure_frame (Mat.setZero n_y_vision 1) s)
      as (_ & _ & _ & _ & _ & _ & Ht & Hf & _).
    fold (measured s) in Ht, Hf.
    destruct (measure_accepted s) eqn:Ha.
    - destruct (visionInit_accepted s Ha) as [_ Hrest].
      destruct (REQ_VISION_INIT_COUNT <? _).
      + destruct Hrest as ((rest & Hl) & _). rewrite Hl in Hn. discriminate.
      + rewrite Hrest. unfold log_of, state_of in *. cbn [fst snd].
        repeat split; assumption.
    - rewrite (visionInit_rejected s Ha).
      unfold log_of, state_of in *. cbn [fst snd].
      repeat split; assumption. }
  assert (HN2 : init_notified (log_of (visionInit s)) = true ->
            _sensorTimeout (state_of (visionInit s)) =
              bit_clear (_sensorTimeout s) SENSOR_VISION /\
            _sensorFault (state_of (visionInit s)) =
              bit_clear (_sensorFault s) SENSOR_VISION).
  { intros Hn. destruct (measure_accepted s) eqn:Ha.
    - destruct (visionInit_accepted s Ha) as [_ Hrest].
      destruct (REQ_VISION_INIT_COUNT <? _).
      + destruct Hrest as (_ & Ht & Hf). split; assumption.
      + rewrite Hrest in Hn. discriminate.
    - destruct (Hrej s Ha) as [_ Hn']. congruence. }
  repeat split.
  - destruct (measure_accepted s) eqn:Ha; [reflexivity|].
    destruct (Hrej s Ha) as [_ Hn]. congruence.
  - destruct (measure_accepted s) eqn:Ha.
    + destruct (Hacc s Ha) as (Hs & Hn & _). rewrite Hs.
      apply Z.ltb_lt. congruence.
    + destruct (Hrej s Ha) as [_ Hn]. congruence.
  - intros [Ha Hc]. destruct (Hacc s Ha) as (Hs & -> & _).
    rewrite Hs in Hc. now apply Z.ltb_lt.
  - destruct (measure_accepted s) eqn:Ha.
    + apply (Hacc s Ha). assumption.
    + destruct (Hrej s Ha) as [_ Hn]. congruence.
  - destruct (measure_accepted s) eqn:Ha.
    + apply (Hacc s Ha). assumption.
    + destruct (Hrej s Ha) as [_ Hn]. congruence.
  - destruct (measure_accepted s) eqn:Ha.
    + destruct (Hacc s Ha) as (Hs & Hn & _). rewrite Hs.
      rewrite Hn in H. apply Z.ltb_lt in H.
      unfold REQ_VISION_INIT_COUNT in H. lia.
    + destruct (Hrej s Ha) as [_ Hn]. congruence.
  - destruct (measure_accepted s) eqn:Ha.
    + destruct (Hacc s Ha) as (Hs & Hn & _).
      rewrite Hn in H. apply Z.ltb_lt in H.
      rewrite (Hcount eq_refl) in H.
      unfold REQ_VISION_INIT_COUNT in H. lia.
    + destruct (Hrej s Ha) as [_ Hn]. congruence.
  - intros Ha. destruct (Hacc s Ha) as (-> & _). now apply Hcount.
  - now apply Hrej.
  - now apply Hrej.
  - apply Hzero.
  - intros Hr Hs. apply Hzero. rewrite Hs. now apply Hrej.
  - now apply HN1.
  - now apply HN1.
  - now apply HN1.
  - now apply HN2.
  - now apply HN2.
Qed.
(** ** The corrector and the fault detector *)

(** C8: the noise matrix [R] that a correction cycle builds is diagonal,
    with the square of the larger of the cached horizontal uncertainty and
    the configured xy floor in its x and y entries, and the square of the
    larger of the cached vertical uncertainty and the configured z floor in
    its z entry.  The configured floors are taken to be numbers. *)
Theorem vision_R_is_noise_covariance (s : Estimator) :
  F32.is_nan (_vision_xy_stddev s) = false ->
  F32.is_nan (_vision_z_stddev s) = false ->
  cycle_R s =
  noise_covariance (_vision_eph (state_of (measured s)))
                   (_vision_epv (state_of (measured s)))
                   (_vision_xy_stddev s) (_vision_z_stddev s).
Proof.
  intros Hxy Hz. unfold cycle_R.
  destruct (visionMeasure_frame (Mat.setZero n_y_vision 1) s)
    as (_ & Exy & Ez & _).
  fold (measured s) in Exy, Ez.
  set (s1 := state_of (measured s)) in *.
  rewrite <- Exy, <- Ez in *.
  unfold noise_covariance.
  rewrite <- (square_of_larger _ _ Hxy), <- (square_of_larger _ _ Hz).
  unfold vision_R.
  destruct (F32.gt (_vision_eph s1) _), (F32.gt (_vision_epv s1) _);
    reflexivity.
Qed.


(** C3: when [getDelayPeriods] fails, that is when the requested delay is
    beyond the horizon of the delay buffer, [visionCorrect] returns with
    [_x], [_P] and the vision fault bit as they were on entry. *)
Theorem visionCorrect_stale_history (s : Estimator) :
  measure_accepted s = true -> delay_within_horizon s = false ->
  let out := visionCorrect s in
  _x (state_of out) = _x s /\ _P (state_of out) = _P s /\
  _sensorFault (state_of out) = _sensorFault s /\
  vision_fault (state_of out) = vision_fault s.
Proof.
  intros Ha Hd. cbv zeta. rewrite (visionCorrect_delay_old s Ha Hd).
  destruct (visionMeasure_frame (Mat.setZero n_y_vision 1) s)
    as (_ & _ & _ & _ & _ & _ & _ & Hf & Hx & HP & _).
  unfold vision_fault, state_of, measured in *. cbn [fst snd].
  rewrite Hf, Hx, HP. auto.
Qed.

(** C1: on a cycle of [visionCorrect] that takes neither early return
    (the measurement is accepted and the delay is within the buffer
    horizon), if the vision fault bit is set once the fault-detection step
    has run, then [_x] and [_P] are those found on entry, while the first
    three slots of the published innovation and innovation variance hold
    the residual and the diagonal of the residual covariance, and the
    remaining three slots hold 0 and 1.  Nothing writes the fault bit after
    the fault-detection step, so the bit tested is that of the final
    state. *)
Theorem visionCorrect_fault_freezes_state (s : Estimator) :
  completed s = true ->
  length (vel_pos_innov (_pub_innov s)) = 6%nat ->
  length (vel_pos_innov_var (_pub_innov s)) = 6%nat ->
  vision_fault (state_of (visionCorrect s)) = true ->
  let out := state_of (visionCorrect s) in
  _x out = _x s /\ _P out = _P s /\
  vel_pos_innov (_pub_innov out) =
    [Mat.get (cycle_r s) 0 0; Mat.get (cycle_r s) 1 0; Mat.get (cycle_r s) 2 0;
     F32.zero; F32.zero; F32.zero] /\
  vel_pos_innov_var (_pub_innov out) =
    [Mat.get (cycle_S s) 0 0; Mat.get (cycle_S s) 1 1; Mat.get (cycle_S s) 2 2;
     F32.one; F32.one; F32.one].
Proof.
  intros Hc Hl1 Hl2. cbv zeta. rewrite (visionCorrect_state s Hc).
  destruct (visionMeasure_frame (Mat.setZero n_y_vision 1) s)
    as (_ & _ & _ & _ & _ & _ & _ & _ & Hx & HP & Hpub).
  fold (measured s) in Hx, HP, Hpub.
  rewrite <- Hpub in Hl1, Hl2.
  destruct (publish_innovations_slots (cycle_r s) (cycle_S s) _ Hl1 Hl2)
    as [Hi Hv].
  destruct (publish_innovations_frame (cycle_r s) (cycle_S s)
              (state_of (measured s))) as (_ & Hxp & HPp & _).
  fold (published s) in Hi, Hv, Hxp, HPp.
  destruct (fault_detection_frame (cycle_beta s) (published s))
    as (Hxf & HPf & Hpf).
  fold (detected s) in Hxf, HPf, Hpf.
  destruct (kalman_correction_frame (cycle_r s) (inv (cycle_S s))
              (state_of (detected s))) as (_ & Hfk & _).
  intros Hf. unfold vision_fault in Hf. rewrite Hfk in Hf.
  rewrite (kalman_correction_fault _ _ _ Hf).
  change (state_of (tt, state_of (detected s), [])) with (state_of (detected s)).
  rewrite Hxf, HPf, Hpf, Hxp, HPp, Hx, HP. auto.
Qed.

(** C2: the fault detector is edge-triggered.  On a completed cycle [s],
    a fault notification is emitted exactly when [beta] exceeds the
    threshold while the bit was clear, a recovery notification exactly when
    [beta] does not exceed it while the bit was set, nothing otherwise; the
    bit ends up set exactly when [beta] exceeds the threshold, and a cycle
    that leaves the bit as it found it emits nothing.  Along five chained
    cycles whose [beta] is below, below, above, above, below the threshold,
    starting with the bit clear, exactly two notifications are emitted: the
    fault at the third cycle and the recovery at the fifth. *)
Theorem fault_detector_edge_triggered (s s1 s2 s3 s4 s5 : Estimator) :
  0 < SENSOR_VISION < 2 ^ 16 ->
  completed s = true ->
  chained false [s1; s2; s3; s4; s5] ->
  map beta_exceeds [s1; s2; s3; s4; s5] = [false; false; true; true; false] ->
  (log_of (visionCorrect s) =
     match beta_exceeds s, vision_fault s with
     | true, false => [(Info, vision_position_fault (cycle_beta s))]
     | false, true => [(Info, vision_position_OK)]
     | _, _ => []
     end /\
   vision_fault (state_of (visionCorrect s)) = beta_exceeds s /\
   (vision_fault (state_of (visionCorrect s)) = vision_fault s ->
    log_of (visionCorrect s) = [])) /\
  notifications [s1; s2; s3; s4; s5] =
    [(Info, vision_position_fault (cycle_beta s3)); (Info, vision_position_OK)] /\
  length (notifications [s1; s2; s3; s4; s5]) = 2%nat.
Proof.
  intros HV Hc Hch Hb.
  destruct (visionCorrect_fault_edge s HV Hc) as [Hl Hf].
  split.
  - repeat split; auto. rewrite Hf, Hl. intros ->.
    now destruct (vision_fault s).
  - destruct Hch as (C1 & F1 & C2 & F2 & C3 & F3 & C4 & F4 & C5 & F5 & _).
    injection Hb as B1 B2 B3 B4 B5.
    destruct (visionCorrect_fault_edge s1 HV C1) as [L1 E1].
    destruct (visionCorrect_fault_edge s2 HV C2) as [L2 E2].
    destruct (visionCorrect_fault_edge s3 HV C3) as [L3 E3].
    destruct (visionCorrect_fault_edge s4 HV C4) as [L4 E4].
    destruct (visionCorrect_fault_edge s5 HV C5) as [L5 E5].
    rewrite E1 in F2. rewrite E2 in F3. rewrite E3 in F4. rewrite E4 in F5.
    rewrite B1, F1 in L1. rewrite B2, F2, B1 in L2. rewrite B3, F3, B2 in L3.
    rewrite B4, F4, B3 in L4. rewrite B5, F5, B4 in L5.
    unfold notifications. cbn [map concat]. rewrite L1, L2, L3, L4, L5.
    split; reflexivity.
Qed.

(** ** The timeout monitor *)

(** C7: when the time since the last seen sample exceeds 0.5 s and the
    vision timeout bit is clear, [visionCheckTimeout] sets the bit, resets
    the accumulator and emits exactly one critical notification; a further
    call, at whatever later time, changes nothing and emits nothing; and a
    call that finds the bit set returns the state unchanged, so the monitor
    never clears the bit. *)
Theorem visionCheckTimeout_fires_once (s : Estimator) :
  0 < SENSOR_VISION < 2 ^ 16 ->
  0 <= _time_last_vision_p s ->
  _timeStamp s < 2 ^ 64 ->
  VISION_TIMEOUT < _timeStamp s - _time_last_vision_p s ->
  vision_timeout s = false ->
  let out := visionCheckTimeout s in
  log_of out = [(Critical, vision_position_timeout)] /\
  vision_timeout (state_of out) = true /\
  _visionStats (state_of out) = Stats.reset (_visionStats s) /\
  Stats.getCount (_visionStats (state_of out)) = 0 /\
  (forall now : Z,
     visionCheckTimeout (set_timeStamp now (state_of out)) =
     (tt, set_timeStamp now (state_of out), [])) /\
  (forall s' : Estimator,
     vision_timeout s' = true ->
     visionCheckTimeout s' = (tt, s', []) /\
     vision_timeout (state_of (visionCheckTimeout s')) = true).
Proof.
  intros HV Hlast Hnow Hexp Hclear. cbv zeta.
  assert (Hfire : visionCheckTimeout s =
            (tt, set_visionStats (Stats.reset (_visionStats s))
                   (set_sensorTimeout
                      (bit_set (_sensorTimeout s) SENSOR_VISION) s),
             [(Critical, vision_position_timeout)])).
  { unfold visionCheckTimeout, bind, gets. unfold vision_timeout in Hclear.
    unfold wrap64, wrap. unfold VISION_TIMEOUT in *.
    rewrite Z.mod_small by lia.
    destruct (Z.ltb_spec 500000 (_timeStamp s - _time_last_vision_p s)); [|lia].
    rewrite Hclear. reflexivity. }
  rewrite Hfire. unfold log_of, state_of. cbn [fst snd].
  assert (Hset : vision_timeout
            (set_visionStats (Stats.reset (_visionStats s))
               (set_sensorTimeout (bit_set (_sensorTimeout s) SENSOR_VISION) s))
            = true).
  { unfold vision_timeout. cbn. apply bit_set_is_set, HV. }
  repeat split; auto.
  - intros now. apply visionCheckTimeout_idle. exact Hset.
  - now apply visionCheckTimeout_idle.
  - rewrite visionCheckTimeout_idle by assumption. assumption.
Qed.

End Claims.

(** * The claims on the bench

    Each property that carries assumptions is exercised on the bench
    firmware, where the assumptions are checked by computation. *)

(** C6, as first stated, for every sample one of whose variances is not
    finite: the bench sample with a NaN z variance and finite x and y
    variances goes through the uncertainty computation and its vertical axis
    is declared invalid. *)
Lemma fallback_is_not_for_every_entry :
  ~ (forall (fw : Firmware) (y0 : Vector) (s : Estimator),
       covariance_finite s = false ->
       let out := visionMeasure y0 s in
       _vision_xy_valid (state_of out) = true /\
       _vision_z_valid (state_of out) = true).
Proof.
  intros H.
  assert (Hc : @covariance_finite Bench.firmware Bench.z_unknown = false)
    by (vm_compute; reflexivity).
  destruct (H Bench.firmware (Mat.setZero n_y_vision 1) Bench.z_unknown Hc)
    as [_ Hz].
  vm_compute in Hz. discriminate.
Qed.

Section OnTheBench.
#[local] Existing Instance Bench.firmware.

Lemma visionMeasure_finite_covariance_witness :
  covariance_finite Bench.boundary = true /\
  let s' := state_of (measured Bench.boundary) in
  _vision_eph s' = EP_MAX_STD_DEV /\ _vision_xy_valid s' = true /\
  _vision_epv s' = EP_MAX_STD_DEV /\ _vision_z_valid s' = true.
Proof.
  assert (H : covariance_finite Bench.boundary = true)
    by (vm_compute; reflexivity).
  split; [exact H|].
  destruct (visionMeasure_finite_covariance (Mat.setZero n_y_vision 1)
              Bench.boundary H) as (_ & _ & _ & _ & _ & Hxy & Hz).
  assert (He : _vision_eph (state_of (measured Bench.boundary))
               = EP_MAX_STD_DEV) by (vm_compute; reflexivity).
  assert (Hv : _vision_epv (state_of (measured Bench.boundary))
               = EP_MAX_STD_DEV) by (vm_compute; reflexivity).
  cbv zeta. split; [exact He|]. split; [exact (Hxy He)|].
  split; [exact Hv | exact (Hz Hv)].
Defined.

Lemma visionMeasure_assumes_valid_witness :
  PX4_ISFINITE (x_variance Bench.no_covariance) = false /\
  _vision_xy_valid (state_of (measured Bench.no_covariance)) = true /\
  _vision_z_valid (state_of (measured Bench.no_covariance)) = true.
Proof.
  assert (H : PX4_ISFINITE (x_variance Bench.no_covariance) = false)
    by (vm_compute; reflexivity).
  split; [exact H|].
  destruct (visionMeasure_assumes_valid (Mat.setZero n_y_vision 1)
              Bench.no_covariance H) as (Hxy & Hz & _).
  split; [exact Hxy | exact Hz].
Defined.

Lemma vision_R_is_noise_covariance_witness :
  F32.is_nan (_vision_xy_stddev Bench.active) = false /\
  F32.is_nan (_vision_z_stddev Bench.active) = false /\
  cycle_R Bench.active =
  noise_covariance (_vision_eph (state_of (measured Bench.active)))
                   (_vision_epv (state_of (measured Bench.active)))
                   (_vision_xy_stddev Bench.active)
                   (_vision_z_stddev Bench.active).
Proof.
  assert (H1 : F32.is_nan (_vision_xy_stddev Bench.active) = false)
    by (vm_compute; reflexivity).
  assert (H2 : F32.is_nan (_vision_z_stddev Bench.active) = false)
    by (vm_compute; reflexivity).
  split; [exact H1|]. split; [exact H2|].
  exact (vision_R_is_noise_covariance Bench.active H1 H2).
Defined.


Lemma visionCorrect_stale_history_witness :
  measure_accepted Bench.late = true /\
  delay_within_horizon Bench.late = false /\
  _x (state_of (visionCorrect Bench.late)) = _x Bench.late /\
  _P (state_of (visionCorrect Bench.late)) = _P Bench.late /\
  _sensorFault (state_of (visionCorrect Bench.late)) = _sensorFault Bench.late.
Proof.
  assert (H1 : measure_accepted Bench.late = true)
    by (vm_compute; reflexivity).
  assert (H2 : delay_within_horizon Bench.late = false)
    by (vm_compute; reflexivity).
  split; [exact H1|]. split; [exact H2|].
  destruct (visionCorrect_stale_history Bench.late H1 H2)
    as (Hx & HP & Hf & _).
  split; [exact Hx|]. split; [exact HP | exact Hf].
Defined.

Lemma visionCorrect_fault_freezes_state_witness :
  completed Bench.outlier = true /\
  vision_fault (state_of (visionCorrect Bench.outlier)) = true /\
  _x (state_of (visionCorrect Bench.outlier)) = _x Bench.outlier /\
  _P (state_of (visionCorrect Bench.outlier)) = _P Bench.outlier.
Proof.
  assert (H1 : completed Bench.outlier = true) by (vm_compute; reflexivity).
  assert (H2 : length (vel_pos_innov (_pub_innov Bench.outlier)) = 6%nat)
    by (vm_compute; reflexivity).
  assert (H3 : length (vel_pos_innov_var (_pub_innov Bench.outlier)) = 6%nat)
    by (vm_compute; reflexivity).
  assert (H4 : vision_fault (state_of (visionCorrect Bench.outlier)) = true)
    by (vm_compute; reflexivity).
  split; [exact H1|]. split; [exact H4|].
  destruct (visionCorrect_fault_freezes_state Bench.outlier H1 H2 H3 H4)
    as (Hx & HP & _).
  split; [exact Hx | exact HP].
Defined.

Lemma fault_detector_edge_triggered_witness :
  0 < SENSOR_VISION < 2 ^ 16 /\
  chained false [Bench.c1; Bench.c2; Bench.c3; Bench.c4; Bench.c5] /\
  map beta_exceeds [Bench.c1; Bench.c2; Bench.c3; Bench.c4; Bench.c5] =
    [false; false; true; true; false] /\
  length (notifications [Bench.c1; Bench.c2; Bench.c3; Bench.c4; Bench.c5])
    = 2%nat.
Proof.
  assert (H1 : 0 < SENSOR_VISION < 2 ^ 16) by (vm_compute; split; reflexivity).
  assert (H2 : completed Bench.c3 = true) by (vm_compute; reflexivity).
  assert (H3 : chained false [Bench.c1; Bench.c2; Bench.c3; Bench.c4; Bench.c5])
    by (vm_compute; repeat split; reflexivity).
  assert (H4 : map beta_exceeds
                 [Bench.c1; Bench.c2; Bench.c3; Bench.c4; Bench.c5] =
               [false; false; true; true; false])
    by (vm_compute; reflexivity).
  split; [exact H1|]. split; [exact H3|]. split; [exact H4|].
  exact (proj2 (proj2 (fault_detector_edge_triggered
                         Bench.c3 Bench.c1 Bench.c2 Bench.c3 Bench.c4 Bench.c5
                         H1 H2 H3 H4))).
Defined.

Lemma visionCheckTimeout_fires_once_witness :
  0 < SENSOR_VISION < 2 ^ 16 /\
  VISION_TIMEOUT < _timeStamp Bench.silent - _time_last_vision_p Bench.silent /\
  vision_timeout Bench.silent = false /\
  log_of (visionCheckTimeout Bench.silent) =
    [(Critical, vision_position_timeout)] /\
  vision_timeout (state_of (visionCheckTimeout Bench.silent)) = true /\
  Stats.getCount (_visionStats (state_of (visionCheckTimeout Bench.silent))) = 0.
Proof.
  assert (H1 : 0 < SENSOR_VISION < 2 ^ 16) by (vm_compute; split; reflexivity).
  assert (H2 : 0 <= _time_last_vision_p Bench.silent) by (vm_compute; congruence).
  assert (H3 : _timeStamp Bench.silent < 2 ^ 64) by (vm_compute; reflexivity).
  assert (H4 : VISION_TIMEOUT <
               _timeStamp Bench.silent - _time_last_vision_p Bench.silent)
    by (vm_compute; reflexivity).
  assert (H5 : vision_timeout Bench.silent = false)
    by (vm_compute; reflexivity).
  split; [exact H1|]. split; [exact H4|]. split; [exact H5|].
  destruct (visionCheckTimeout_fires_once Bench.silent H1 H2 H3 H4 H5)
    as (Hl & Hb & _ & Hc & _).
  split; [exact Hl|]. split; [exact Hb | exact Hc].
Defined.

(** Two accepted samples in a row initialise the unit; one does not. *)
Example visionInit_on_the_bench :
  let first := visionInit Bench.boot in
  let second := visionInit (state_of first) in
  init_notified (log_of first) = false /\
  vision_timeout (state_of first) = true /\
  init_notified (log_of second) = true /\
  vision_timeout (state_of second) = false.
Proof. vm_compute. repeat split; reflexivity. Qed.

End OnTheBench.

(** * Further properties of the unit *)

(** ** Further facts on numbers and masks *)

Lemma F32_gt_nan (b t : float32) : F32.is_nan b = true -> F32.gt b t = false.
Proof. destruct b; try discriminate. intros _. destruct t; reflexivity. Qed.

Lemma unsigned_not_below_zero (a : float32) :
  unsigned_or_nan a = true -> F32.lt a F32.zero = false.
Proof.
  destruct a as [sg | sg | | sg m e]; try destruct sg;
    cbv; congruence.
Qed.

Lemma binary_round_aux_unsigned (m : positive) (e : Z) (l : location) :
  unsigned_or_nan (binary_round_aux F32.prec F32.emax false (Zpos m) e l) = true.
Proof.
  unfold binary_round_aux.
  destruct (shr_fexp _ _ _ _ _) as [mrs e1].
  destruct (shr_fexp _ _ _ _ _) as [mrs2 e2].
  destruct (shr_m mrs2); try reflexivity.
  destruct (_ <=? _); reflexivity.
Qed.

Lemma of_Z_unsigned (n : Z) : 0 <= n -> unsigned_or_nan (F32.of_Z n) = true.
Proof.
  intros Hn. unfold F32.of_Z, binary_normalize.
  destruct n as [|p|p]; try reflexivity; [|lia].
  unfold binary_round. destruct (shl_align _ _ _) as [mz ez].
  apply binary_round_aux_unsigned.
Qed.

Lemma mul_unsigned (a b : float32) :
  unsigned_or_nan a = true -> unsigned_or_nan b = true ->
  unsigned_or_nan (F32.mul a b) = true.
Proof.
  unfold F32.mul, SFmul.
  destruct a as [sa | sa | | sa ma ea], b as [sb | sb | | sb mb eb];
    simpl; intros Ha Hb; try reflexivity;
    try (apply negb_true_iff in Ha; subst sa);
    try (apply negb_true_iff in Hb; subst sb);
    try reflexivity.
  apply binary_round_aux_unsigned.
Qed.

Lemma testbit_bit_set (m b n : Z) :
  0 <= m < 2 ^ 16 -> 0 <= n -> Z.testbit b n = false ->
  Z.testbit (bit_set m b) n = Z.testbit m n.
Proof.
  intros Hm Hn Hb. unfold bit_set, wrap16, wrap.
  rewrite <- Z.land_ones by lia.
  rewrite Z.land_spec, Z.lor_spec, Hb, orb_false_r.
  destruct (Z_lt_ge_dec n 16).
  - rewrite Z.ones_spec_low by lia. apply andb_true_r.
  - rewrite Z.ones_spec_high by lia. rewrite andb_false_r.
    destruct (Z.eq_dec m 0) as [->|]; [now rewrite Z.bits_0|].
    symmetry. apply Z.bits_above_log2; [lia|].
    apply Z.lt_le_trans with 16; [|lia]. apply Z.log2_lt_pow2; lia.
Qed.

Lemma testbit_bit_clear (m b n : Z) :
  0 <= m < 2 ^ 16 -> 0 <= n -> Z.testbit b n = false ->
  Z.testbit (bit_clear m b) n = Z.testbit m n.
Proof.
  intros Hm Hn Hb. unfold bit_clear, wrap16, wrap.
  rewrite <- Z.land_ones by lia.
  rewrite !Z.land_spec, Z.lnot_spec, Hb by lia. cbn [negb].
  rewrite andb_true_r.
  destruct (Z_lt_ge_dec n 16).
  - rewrite Z.ones_spec_low by lia. apply andb_true_r.
  - rewrite Z.ones_spec_high by lia. rewrite andb_false_r.
    destruct (Z.eq_dec m 0) as [->|]; [now rewrite Z.bits_0|].
    symmetry. apply Z.bits_above_log2; [lia|].
    apply Z.lt_le_trans with 16; [|lia]. apply Z.log2_lt_pow2; lia.
Qed.

Section Further.
Context {fw : Firmware}.

Ltac run_unit :=
  unfold measured, visionMeasure, bind, gets, modify, ret,
    result, state_of, log_of;
  repeat match goal with
         | |- context [if ?b then _ else _] => destruct b eqn:?; cbn
         end.

(** The fields outside the measurement that [visionMeasure] does not
    write either. *)
Lemma visionMeasure_origin_frame (y0 : Vector) (s : Estimator) :
  let s' := state_of (visionMeasure y0 s) in
  _map_ref s' = _map_ref s /\ _time_origin s' = _time_origin s /\
  _altOriginInitialized s' = _altOriginInitialized s /\
  _altOriginGlobal s' = _altOriginGlobal s /\
  _altOrigin s' = _altOrigin s /\
  _ref_lat s' = _ref_lat s /\ _ref_lon s' = _ref_lon s /\
  _ref_alt s' = _ref_alt s.
Proof. cbv zeta. run_unit; repeat split. Qed.

(** What the steps after the measurement leave alone. *)
Lemma publish_innovations_keeps (r S : Matrix) (s : Estimator) :
  let out := state_of (publish_innovations r S s) in
  _time_last_vision_p out = _time_last_vision_p s /\
  _visionStats out = _visionStats s /\
  _sensorTimeout out = _sensorTimeout s.
Proof. cbv zeta. repeat split. Qed.

Lemma fault_detection_keeps (beta : float32) (s : Estimator) :
  let out := state_of (fault_detection beta s) in
  _time_last_vision_p out = _time_last_vision_p s /\
  _visionStats out = _visionStats s /\
  _sensorTimeout out = _sensorTimeout s.
Proof.
  cbv zeta. rewrite fault_detection_cases.
  destruct (F32.gt beta _), (vision_fault s); repeat split.
Qed.

Lemma kalman_correction_keeps (r S_I : Matrix) (s : Estimator) :
  let out := state_of (kalman_correction r S_I s) in
  _time_last_vision_p out = _time_last_vision_p s /\
  _visionStats out = _visionStats s /\
  _sensorTimeout out = _sensorTimeout s.
Proof.
  cbv zeta. unfold kalman_correction, bind, gets.
  destruct (negb _); repeat split.
Qed.

Lemma correction_steps_frame (r S S_I : Matrix) (beta : float32)
    (s1 : Estimator) :
  let out :=
    state_of (kalman_correction r S_I
                (state_of (fault_detection beta
                             (state_of (publish_innovations r S s1))))) in
  _time_last_vision_p out = _time_last_vision_p s1 /\
  _visionStats out = _visionStats s1 /\
  _sensorTimeout out = _sensorTimeout s1.
Proof.
  cbv zeta.
  destruct (publish_innovations_keeps r S s1) as (a2 & b2 & c2).
  destruct (fault_detection_keeps beta
              (state_of (publish_innovations r S s1))) as (a3 & b3 & c3).
  destruct (kalman_correction_keeps r S_I
              (state_of (fault_detection beta
                           (state_of (publish_innovations r S s1)))))
    as (a4 & b4 & c4).
  repeat split; congruence.
Qed.

Lemma visionCorrect_completed_frame (s : Estimator) :
  completed s = true ->
  let out := state_of (visionCorrect s) in
  _time_last_vision_p out = _time_last_vision_p (state_of (measured s)) /\
  _visionStats out = _visionStats (state_of (measured s)) /\
  _sensorTimeout out = _sensorTimeout (state_of (measured s)).
Proof.
  intros Hc. cbv zeta. rewrite (visionCorrect_state s Hc).
  unfold detected, published.
  generalize (cycle_r s), (cycle_S s), (inv (cycle_S s)), (cycle_beta s),
    (state_of (measured s)).
  intros r S S_I beta s1. apply correction_steps_frame.
Qed.

Lemma kalman_correction_applies (r S_I : Matrix) (s : Estimator) :
  vision_fault s = false ->
  let K :=
    Mat.mul n_x n_y_vision n_y_vision
      (Mat.mul n_x n_x n_y_vision (_P s) (Mat.transpose n_y_vision n_x vision_C))
      S_I in
  let out := state_of (kalman_correction r S_I s) in
  _x out = Mat.add n_x 1 (_x s) (Mat.mul n_x n_y_vision 1 K r) /\
  _P out =
    Mat.sub n_x n_x (_P s)
      (Mat.mul n_x n_x n_x (Mat.mul n_x n_y_vision n_x K vision_C) (_P s)).
Proof.
  unfold vision_fault. intros Hf. cbv zeta.
  unfold kalman_correction, bind, gets. rewrite Hf. split; reflexivity.
Qed.

(** A completed cycle whose [beta] does not exceed the threshold. *)
Lemma visionCorrect_gate_open (s : Estimator) :
  completed s = true -> beta_exceeds s = false ->
  vision_fault (state_of (visionCorrect s)) = false /\
  _x (state_of (visionCorrect s)) = corrected_x s /\
  _P (state_of (visionCorrect s)) = corrected_P s /\
  log_of (visionCorrect s) =
    (if vision_fault s then [(Info, vision_position_OK)] else []).
Proof.
  intros Hc Hb.
  destruct (visionMeasure_frame (Mat.setZero n_y_vision 1) s)
    as (_ & _ & _ & _ & _ & _ & _ & _ & Hx & HP & _).
  fold (measured s) in Hx, HP.
  destruct (publish_innovations_frame (cycle_r s) (cycle_S s)
              (state_of (measured s))) as (_ & Hxp & HPp & _).
  fold (published s) in Hxp, HPp.
  destruct (fault_detection_frame (cycle_beta s) (published s))
    as (Hxf & HPf & _).
  fold (detected s) in Hxf, HPf.
  assert (Hd : vision_fault (state_of (detected s)) = false /\
               log_of (detected s) =
               (if vision_fault s then [(Info, vision_position_OK)] else [])).
  { unfold detected. rewrite fault_detection_cases.
    fold (beta_exceeds s). rewrite Hb, (published_fault s).
    destruct (vision_fault s) eqn:Ef; unfold state_of, log_of; cbn [fst snd].
    - split; [|reflexivity]. unfold vision_fault. apply bit_clear_is_clear.
    - split; [|reflexivity]. now rewrite (published_fault s). }
  destruct Hd as [Hf Hl].
  destruct (kalman_correction_applies (cycle_r s) (inv (cycle_S s)) _ Hf)
    as [Hkx HkP].
  rewrite (visionCorrect_fault_after s Hc), (visionCorrect_state s Hc),
    (visionCorrect_notes s Hc).
  split; [exact Hf|]. split; [|split; [|exact Hl]].
  - rewrite Hkx. unfold corrected_x, cycle_K. now rewrite Hxf, HPf, Hxp, HPp, Hx, HP.
  - rewrite HkP. unfold corrected_P, cycle_K. now rewrite HPf, HPp, HP.
Qed.

Lemma visionCheckTimeout_fires (s : Estimator) :
  (VISION_TIMEOUT <? wrap64 (_timeStamp s - _time_last_vision_p s)) = true ->
  vision_timeout s = false ->
  visionCheckTimeout s =
  (tt, set_visionStats (Stats.reset (_visionStats s))
         (set_sensorTimeout (bit_set (_sensorTimeout s) SENSOR_VISION) s),
   [(Critical, vision_position_timeout)]).
Proof.
  unfold vision_timeout, visionCheckTimeout, bind, gets. intros -> H.
  rewrite H. reflexivity.
Qed.

Lemma visionCheckTimeout_quiet (s : Estimator) :
  (VISION_TIMEOUT <? wrap64 (_timeStamp s - _time_last_vision_p s)) = false ->
  visionCheckTimeout s = (tt, s, []).
Proof. unfold visionCheckTimeout, bind, gets. intros ->. reflexivity. Qed.

(** On every path [visionCorrect] leaves the last-seen time that its
    measurement step recorded. *)
Lemma visionCorrect_last_seen (s : Estimator) :
  _time_last_vision_p (state_of (visionCorrect s)) =
  Odom.timestamp (_sub_visual_odom s).
Proof.
  rewrite <- (visionMeasure_last_seen (Mat.setZero n_y_vision 1) s).
  fold (measured s).
  destruct (measure_accepted s) eqn:Ha.
  - destruct (delay_within_horizon s) eqn:Hd.
    + assert (Hc : completed s = true) by (unfold completed; now rewrite Ha, Hd).
      apply (visionCorrect_completed_frame s Hc).
    + now rewrite (visionCorrect_delay_old s Ha Hd).
  - now rewrite (visionCorrect_rejected s Ha).
Qed.

(** ** Further properties *)

(** X1: [visionMeasure] succeeds exactly when both axes are declared valid
    and the x position is finite; the y and z positions are not looked
    at. *)
Theorem visionMeasure_accepts_iff (y0 : Vector) (s : Estimator) :
  let out := visionMeasure y0 s in
  fst (result out) = OK <->
  _vision_xy_valid (state_of out) = true /\
  _vision_z_valid (state_of out) = true /\
  PX4_ISFINITE (Odom.x (_sub_visual_odom s)) = true.
Proof.
  cbv zeta.
  unfold visionMeasure, bind, gets, modify, ret, result, state_of, log_of.
  destruct (PX4_ISFINITE (Odom.cov_at _ _)); cbn.
  - destruct (F32.le (F32.sqrtf (F32.fmaxf _ _)) _),
      (F32.le (F32.sqrtf (Odom.cov_at _ _)) _); cbn;
      try (split; [discriminate | intros (? & ? & ?); discriminate]).
    destruct (PX4_ISFINITE (Odom.x _)); cbn; split; auto; try discriminate.
    intros (_ & _ & ?); discriminate.
  - destruct (PX4_ISFINITE (Odom.x _)); cbn; split; auto; try discriminate.
    intros (_ & _ & ?); discriminate.
Qed.

(** X2: a rejected measurement makes [visionCorrect] emit exactly one
    notification, carrying the cached uncertainties, and leave the state
    vector, the covariance, both health bitmasks, the published
    innovations and the accumulator as they were; the last-seen time is
    still updated. *)
Theorem visionCorrect_rejected_effects (s : Estimator) :
  measure_accepted s = false ->
  let out := visionCorrect s in
  log_of out =
    [(Info, vision_data_invalid (_vision_eph (state_of out))
                                (_vision_epv (state_of out)))] /\
  _x (state_of out) = _x s /\ _P (state_of out) = _P s /\
  _sensorFault (state_of out) = _sensorFault s /\
  _sensorTimeout (state_of out) = _sensorTimeout s /\
  _pub_innov (state_of out) = _pub_innov s /\
  _visionStats (state_of out) = _visionStats s /\
  _time_last_vision_p (state_of out) = Odom.timestamp (_sub_visual_odom s).
Proof.
  intros Ha. cbv zeta. rewrite (visionCorrect_rejected s Ha).
  unfold log_of, state_of at 1 2. cbn [fst snd].
  destruct (visionMeasure_frame (Mat.setZero n_y_vision 1) s)
    as (_ & _ & _ & _ & _ & _ & Ht & Hf & Hx & HP & Hpub).
  pose proof (visionMeasure_last_seen (Mat.setZero n_y_vision 1) s) as Hl.
  unfold measure_accepted in Ha. apply Z.eqb_neq in Ha.
  destruct (visionMeasure_result (Mat.setZero n_y_vision 1) s)
    as [[Hr _] | (_ & _ & Hs)]; [now elim Ha|].
  unfold measured in *. unfold state_of at 1. cbn [fst snd].
  repeat split; assumption.
Qed.

(** X3: on a completed cycle whose [beta] does not exceed the threshold,
    whatever the fault bit was on entry, the bit is clear on exit and the
    correction is applied: [_x] becomes [_x + K r] and [_P] becomes
    [_P - K C _P] with [K = P C' S_I]; the only notification possible is
    the recovery one, emitted when the bit was set. *)
Theorem visionCorrect_applies_correction (s : Estimator) :
  completed s = true -> beta_exceeds s = false ->
  let out := visionCorrect s in
  vision_fault (state_of out) = false /\
  _x (state_of out) = corrected_x s /\
  _P (state_of out) = corrected_P s /\
  log_of out = (if vision_fault s then [(Info, vision_position_OK)] else []).
Proof. intros Hc Hb. cbv zeta. now apply visionCorrect_gate_open. Qed.

(** X4: a [beta] that is NaN never raises the fault: the comparison with
    the threshold is false, so the cycle ends with the fault bit clear and
    the correction applied. *)
Theorem visionCorrect_nan_beta_is_no_fault (s : Estimator) :
  completed s = true -> F32.is_nan (cycle_beta s) = true ->
  let out := visionCorrect s in
  beta_exceeds s = false /\
  vision_fault (state_of out) = false /\
  _x (state_of out) = corrected_x s /\
  _P (state_of out) = corrected_P s.
Proof.
  intros Hc Hn. cbv zeta.
  assert (Hb : beta_exceeds s = false) by (now apply F32_gt_nan).
  destruct (visionCorrect_gate_open s Hc Hb) as (Hf & Hx & HP & _).
  auto.
Qed.

(** X5: the delay computed from the two times is never below zero, the
    difference being unsigned, so the clamp to zero never acts: the delay
    handed to [getDelayPeriods] is the configured one when that is
    positive and the raw, wrapped difference in seconds otherwise. *)
Theorem vision_delay_never_clamped (s : Estimator) :
  F32.lt (vision_delay_raw s) F32.zero = false /\
  vision_delay_arg s =
    (if F32.gt (_vision_delay s) F32.zero then _vision_delay s
     else vision_delay_raw s).
Proof.
  assert (H : F32.lt (vision_delay_raw s) F32.zero = false).
  { apply unsigned_not_below_zero. unfold vision_delay_raw.
    apply mul_unsigned.
    - apply of_Z_unsigned. unfold wrap64, wrap.
      apply Z.mod_pos_bound. lia.
    - vm_compute. reflexivity. }
  split; [exact H|].
  unfold vision_delay_arg. cbv zeta.
  change (F32.mul
            (F32.of_Z
               (wrap64 (_timeStamp s - Odom.timestamp (_sub_visual_odom s))))
            f32_1em6) with (vision_delay_raw s).
  now rewrite H.
Qed.

(** X6: a last-seen time ahead of the clock makes the unsigned difference
    wrap around, and the timeout fires although no time has elapsed. *)
Theorem visionCheckTimeout_wraps_on_future_sample (s : Estimator) :
  0 < SENSOR_VISION < 2 ^ 16 ->
  0 <= _timeStamp s ->
  _timeStamp s < _time_last_vision_p s ->
  _time_last_vision_p s < 2 ^ 64 ->
  _time_last_vision_p s - _timeStamp s < 2 ^ 64 - VISION_TIMEOUT ->
  vision_timeout s = false ->
  let out := visionCheckTimeout s in
  log_of out = [(Critical, vision_position_timeout)] /\
  vision_timeout (state_of out) = true /\
  Stats.getCount (_visionStats (state_of out)) = 0.
Proof.
  intros HV H0 Hlt Hmax Hgap Hclear. cbv zeta.
  assert (Hw : wrap64 (_timeStamp s - _time_last_vision_p s) =
               2 ^ 64 + _timeStamp s - _time_last_vision_p s).
  { unfold wrap64, wrap. symmetry.
    apply Z.mod_unique with (q := -1); lia. }
  rewrite (visionCheckTimeout_fires s); [| |exact Hclear].
  - unfold log_of, state_of. cbn [fst snd]. repeat split.
    unfold vision_timeout. cbn. apply bit_set_is_set, HV.
  - rewrite Hw. apply Z.ltb_lt. unfold VISION_TIMEOUT in *. lia.
Qed.

(** X7: while the last sample seen is at most 0.5 s old, exactly 0.5 s
    included, [visionCheckTimeout] changes nothing and emits nothing. *)
Theorem visionCheckTimeout_within_timeout (s : Estimator) :
  0 <= _time_last_vision_p s ->
  _time_last_vision_p s <= _timeStamp s ->
  _timeStamp s < 2 ^ 64 ->
  _timeStamp s - _time_last_vision_p s <= VISION_TIMEOUT ->
  visionCheckTimeout s = (tt, s, []).
Proof.
  intros H0 Hle Hmax Hgap. apply visionCheckTimeout_quiet.
  unfold wrap64, wrap. rewrite Z.mod_small by lia.
  apply Z.ltb_ge. exact Hgap.
Qed.

(** X8: every call of [visionCorrect], also one that rejects its sample or
    aborts on the delay, takes the timestamp of the sample as the
    last-seen time; so as long as samples not older than 0.5 s keep
    arriving, valid or not, the timeout monitor stays silent. *)
Theorem rejected_samples_hold_off_timeout (s : Estimator) (now : Z) :
  0 <= Odom.timestamp (_sub_visual_odom s) ->
  Odom.timestamp (_sub_visual_odom s) <= now ->
  now < 2 ^ 64 ->
  now - Odom.timestamp (_sub_visual_odom s) <= VISION_TIMEOUT ->
  let s' := set_timeStamp now (state_of (visionCorrect s)) in
  _time_last_vision_p (state_of (visionCorrect s)) =
    Odom.timestamp (_sub_visual_odom s) /\
  visionCheckTimeout s' = (tt, s', []).
Proof.
  intros H0 Hle Hmax Hgap. cbv zeta.
  pose proof (visionCorrect_last_seen s) as Hl.
  split; [exact Hl|].
  apply visionCheckTimeout_quiet.
  change (_timeStamp (set_timeStamp now (state_of (visionCorrect s))))
    with now.
  change (_time_last_vision_p
            (set_timeStamp now (state_of (visionCorrect s))))
    with (_time_last_vision_p (state_of (visionCorrect s))).
  rewrite Hl. unfold wrap64, wrap. rewrite Z.mod_small by lia.
  apply Z.ltb_ge. exact Hgap.
Qed.

(** X9: a cycle aborted because the delay is beyond the horizon emits
    nothing and publishes nothing, but its measurement step has already
    run: the accumulator holds one sample more and the last-seen time is
    that of the sample. *)
Theorem visionCorrect_stale_history_side_effects (s : Estimator) :
  measure_accepted s = true -> delay_within_horizon s = false ->
  let out := visionCorrect s in
  log_of out = [] /\
  _pub_innov (state_of out) = _pub_innov s /\
  Stats.getCount (_visionStats (state_of out)) =
    Stats.getCount (_visionStats s) + 1 /\
  _time_last_vision_p (state_of out) = Odom.timestamp (_sub_visual_odom s).
Proof.
  intros Ha Hd. cbv zeta. rewrite (visionCorrect_delay_old s Ha Hd).
  destruct (visionMeasure_frame (Mat.setZero n_y_vision 1) s)
    as (_ & _ & _ & _ & _ & _ & _ & _ & _ & _ & Hpub).
  pose proof (visionMeasure_last_seen (Mat.setZero n_y_vision 1) s) as Hl.
  unfold measure_accepted in Ha. apply Z.eqb_eq in Ha.
  destruct (visionMeasure_result (Mat.setZero n_y_vision 1) s)
    as [[_ Hs] | (Hr & _)];
    [|unfold measured in Ha; rewrite Hr in Ha; discriminate].
  unfold log_of, state_of, measured in *. cbn [fst snd] in *.
  repeat split; try assumption.
  rewrite Hs. unfold Stats.getCount, Stats.update. cbn [_count]. lia.
Qed.

(** X10: every completed cycle publishes its diagnostics, fault or no
    fault: the residual and the diagonal of the residual covariance in the
    first three slots, 0 and 1 in the other three. *)
Theorem visionCorrect_publishes_innovations (s : Estimator) :
  completed s = true ->
  length (vel_pos_innov (_pub_innov s)) = 6%nat ->
  length (vel_pos_innov_var (_pub_innov s)) = 6%nat ->
  let m := _pub_innov (state_of (visionCorrect s)) in
  vel_pos_innov m =
    [Mat.get (cycle_r s) 0 0; Mat.get (cycle_r s) 1 0; Mat.get (cycle_r s) 2 0;
     F32.zero; F32.zero; F32.zero] /\
  vel_pos_innov_var m =
    [Mat.get (cycle_S s) 0 0; Mat.get (cycle_S s) 1 1; Mat.get (cycle_S s) 2 2;
     F32.one; F32.one; F32.one].
Proof.
  intros Hc Hl1 Hl2. cbv zeta. rewrite (visionCorrect_state s Hc).
  destruct (visionMeasure_frame (Mat.setZero n_y_vision 1) s)
    as (_ & _ & _ & _ & _ & _ & _ & _ & _ & _ & Hpub).
  fold (measured s) in Hpub. rewrite <- Hpub in Hl1, Hl2.
  destruct (publish_innovations_slots (cycle_r s) (cycle_S s) _ Hl1 Hl2)
    as [Hi Hv].
  fold (published s) in Hi, Hv.
  destruct (fault_detection_frame (cycle_beta s) (published s))
    as (_ & _ & Hpf).
  fold (detected s) in Hpf.
  destruct (kalman_correction_frame (cycle_r s) (inv (cycle_S s))
              (state_of (detected s))) as (_ & _ & ->).
  rewrite Hpf. auto.
Qed.

(** What a completing call of [visionInit] leaves behind. *)
Lemma visionInit_completion (s : Estimator) :
  measure_accepted s = true ->
  (REQ_VISION_INIT_COUNT <?
   Stats.getCount (_visionStats (state_of (measured s)))) = true ->
  let out := visionInit s in
  let establish :=
    negb (init_done (_map_ref s)) && globallocalconverter_initialized in
  let lat := fst (fst (reference s)) in
  let lon := snd (fst (reference s)) in
  let alt := snd (reference s) in
  log_of out =
    (Info, vision_position_init (_visionStats (state_of (measured s))))
    :: (if establish then [(Info, global_origin_init lat lon alt)] else []) /\
  (_ref_lat (state_of out) = lat /\ _ref_lon (state_of out) = lon /\
   _ref_alt (state_of out) = alt /\
   _global_ref_timestamp (state_of out) = _timeStamp s /\
   _is_global_cov_init (state_of out) = globallocalconverter_initialized) /\
  (_map_ref (state_of out) =
     (if establish then map_projection_init (_map_ref s) lat lon
      else _map_ref s) /\
   _time_origin (state_of out) =
     (if establish then _timeStamp s else _time_origin s)) /\
  (_altOriginInitialized (state_of out) = true /\
   _altOriginGlobal (state_of out) =
     (if _altOriginInitialized s then _altOriginGlobal s else true) /\
   _altOrigin (state_of out) =
     (if _altOriginInitialized s then _altOrigin s
      else if globallocalconverter_initialized then alt else F32.zero)).
Proof.
  unfold measure_accepted, reference.
  destruct (visionMeasure_frame (Mat.setZero n_y_vision 1) s)
    as (_ & _ & _ & _ & Hts & _).
  destruct (visionMeasure_origin_frame (Mat.setZero n_y_vision 1) s)
    as (Hm & Hto & Hai & Hag & Hao & Hla & Hlo & Hal).
  revert Hts Hm Hto Hai Hag Hao Hla Hlo Hal. unfold measured.
  pose proof (visionMeasure_log (Mat.setZero n_y_vision 1) s) as Hlog.
  remember (visionInit s) as out eqn:Eout.
  unfold visionInit in Eout. unfold bind at 1 in Eout.
  destruct (visionMeasure (Mat.setZero n_y_vision 1) s) as [[[rc y1] s1] l1].
  unfold result, state_of, log_of in *. cbn [fst snd] in *. subst l1.
  intros Hts Hm Hto Hai Hag Hao Hla Hlo Hal Hrc Hcount.
  rewrite Hrc in Eout. cbn [negb] in Eout.
  unfold bind at 1 in Eout. unfold gets at 1 in Eout.
  rewrite Hcount in Eout.
  unfold bind, gets, modify, mavlink_and_console_log_info, ret in Eout.
  cbn [fst snd app] in Eout.
  rewrite <- Hts, <- Hm, <- Hto, <- Hai, <- Hag, <- Hao, <- Hla, <- Hlo, <- Hal.
  destruct (globallocalconverter_getref _ _ _) as [[lat lon] alt].
  cbn in Eout. subst out. cbn [fst snd].
  destruct (negb (init_done (_map_ref s1)) && globallocalconverter_initialized);
    cbn; destruct (_altOriginInitialized s1) eqn:Ealt; cbn;
    repeat split; exact Ealt.
Qed.

(** A call of [visionInit] that does not complete writes none of the
    origin fields and neither bitmask. *)
Lemma visionInit_incomplete (s : Estimator) :
  init_notified (log_of (visionInit s)) = false ->
  let out := state_of (visionInit s) in
  log_of (visionInit s) = [] /\
  _map_ref out = _map_ref s /\ _time_origin out = _time_origin s /\
  _altOriginInitialized out = _altOriginInitialized s /\
  _altOriginGlobal out = _altOriginGlobal s /\
  _altOrigin out = _altOrigin s /\
  _sensorTimeout out = _sensorTimeout s /\
  _sensorFault out = _sensorFault s.
Proof.
  intros Hn. cbv zeta.
  destruct (visionMeasure_frame (Mat.setZero n_y_vision 1) s)
    as (_ & _ & _ & _ & _ & _ & Ht & Hf & _).
  destruct (visionMeasure_origin_frame (Mat.setZero n_y_vision 1) s)
    as (Hm & Hto & Hai & Hag & Hao & _).
  fold (measured s) in Ht, Hf, Hm, Hto, Hai, Hag, Hao.
  destruct (measure_accepted s) eqn:Ha.
  - destruct (visionInit_accepted s Ha) as [_ Hrest].
    destruct (REQ_VISION_INIT_COUNT <? _).
    + destruct Hrest as ((rest & Hl) & _). rewrite Hl in Hn. discriminate.
    + rewrite Hrest. unfold log_of, state_of. cbn [fst snd].
      unfold state_of in *. repeat split; assumption.
  - rewrite (visionInit_rejected s Ha). unfold log_of, state_of. cbn [fst snd].
    unfold state_of in *. repeat split; assumption.
Qed.

Lemma visionInit_completes_iff (s : Estimator) :
  init_notified (log_of (visionInit s)) = true ->
  measure_accepted s = true /\
  (REQ_VISION_INIT_COUNT <?
   Stats.getCount (_visionStats (state_of (measured s)))) = true.
Proof.
  intros Hn. destruct (measure_accepted s) eqn:Ha.
  - split; [reflexivity|]. destruct (visionInit_accepted s Ha) as [_ Hrest].
    destruct (REQ_VISION_INIT_COUNT <? _); [reflexivity|].
    rewrite Hrest in Hn. discriminate.
  - rewrite (visionInit_rejected s Ha) in Hn. discriminate.
Qed.

(** X11: two accepted samples in a row are enough: from an empty
    accumulator the first call of [visionInit] with an accepted sample
    completes nothing, and the next call with an accepted sample completes
    the initialisation, with a count of 2 and both bits of the sensor
    clear. *)
Theorem visionInit_two_samples_suffice
    (s : Estimator) (o : vehicle_odometry) (now : Z) :
  Stats.getCount (_visionStats s) = 0 ->
  measure_accepted s = true ->
  measure_accepted (next_cycle o now (state_of (visionInit s))) = true ->
  let first := visionInit s in
  let second := visionInit (next_cycle o now (state_of first)) in
  log_of first = [] /\
  init_notified (log_of second) = true /\
  Stats.getCount (_visionStats (state_of second)) = 2 /\
  vision_timeout (state_of second) = false /\
  vision_fault (state_of second) = false.
Proof.
  intros H0 Ha1 Ha2. cbv zeta.
  assert (Hstep : forall t, measure_accepted t = true ->
            Stats.getCount (_visionStats (state_of (measured t))) =
            Stats.getCount (_visionStats t) + 1).
  { intros t Ha. unfold measure_accepted, measured in *. apply Z.eqb_eq in Ha.
    destruct (visionMeasure_result (Mat.setZero n_y_vision 1) t)
      as [[_ ->] | [Hr _]]; [|rewrite Hr in Ha; discriminate].
    unfold Stats.getCount, Stats.update. cbn [_count]. lia. }
  destruct (visionInit_accepted s Ha1) as [Hs1 Hr1].
  rewrite (Hstep s Ha1), H0 in Hr1. cbn in Hr1.
  split; [now rewrite Hr1|].
  set (s' := next_cycle o now (state_of (visionInit s))) in *.
  assert (Hc : Stats.getCount (_visionStats s') = 1).
  { change (_visionStats s') with (_visionStats (state_of (visionInit s))).
    rewrite Hs1, (Hstep s Ha1), H0. reflexivity. }
  destruct (visionInit_accepted s' Ha2) as [Hs2 Hr2].
  rewrite (Hstep s' Ha2), Hc in Hr2. cbn in Hr2.
  destruct Hr2 as ((rest & Hl) & Ht & Hf).
  split; [now rewrite Hl|]. split; [now rewrite Hs2, (Hstep s' Ha2), Hc|].
  unfold vision_timeout, vision_fault. rewrite Ht, Hf.
  split; apply bit_clear_is_clear.
Qed.

(** X12: once a global origin exists ([_map_ref.init_done]), no call of
    [visionInit] establishes it again: the projection reference and the
    time of the origin stay as they are and no global-origin notification
    is emitted. *)
Theorem visionInit_keeps_global_origin (s : Estimator) :
  init_done (_map_ref s) = true ->
  let out := visionInit s in
  _map_ref (state_of out) = _map_ref s /\
  _time_origin (state_of out) = _time_origin s /\
  origin_notified (log_of out) = false.
Proof.
  intros Hd. cbv zeta.
  destruct (init_notified (log_of (visionInit s))) eqn:Hn.
  - destruct (visionInit_completes_iff s Hn) as [Ha Hc].
    destruct (visionInit_completion s Ha Hc) as (Hl & _ & (Hm & Ht) & _).
    rewrite Hd in Hl, Hm, Ht. cbn in Hl, Hm, Ht.
    rewrite Hl. auto.
  - destruct (visionInit_incomplete s Hn) as (Hl & Hm & Ht & _).
    rewrite Hl. auto.
Qed.

(** X13: once an altitude origin exists, no call of [visionInit] changes
    it. *)
Theorem visionInit_keeps_altitude_origin (s : Estimator) :
  _altOriginInitialized s = true ->
  let out := state_of (visionInit s) in
  _altOriginInitialized out = true /\
  _altOriginGlobal out = _altOriginGlobal s /\
  _altOrigin out = _altOrigin s.
Proof.
  intros Hd. cbv zeta.
  destruct (init_notified (log_of (visionInit s))) eqn:Hn.
  - destruct (visionInit_completes_iff s Hn) as [Ha Hc].
    destruct (visionInit_completion s Ha Hc) as (_ & _ & _ & Hi & Hg & Ho).
    rewrite Hd in Hg, Ho. auto.
  - destruct (visionInit_incomplete s Hn) as (_ & _ & _ & Hi & Hg & Ho & _).
    rewrite Hi. auto.
Qed.

(** X14: a completing call of [visionInit] that finds no global origin
    while the global converter is initialised establishes the origin: it
    emits the init and the global-origin notifications, in this order,
    stores the reference returned by the converter, initialises the
    projection with it and stamps the origin with the current time. *)
Theorem visionInit_establishes_global_origin (s : Estimator) :
  init_notified (log_of (visionInit s)) = true ->
  init_done (_map_ref s) = false ->
  globallocalconverter_initialized = true ->
  let out := visionInit s in
  let lat := fst (fst (reference s)) in
  let lon := snd (fst (reference s)) in
  let alt := snd (reference s) in
  log_of out =
    [(Info, vision_position_init (_visionStats (state_of out)));
     (Info, global_origin_init lat lon alt)] /\
  _ref_lat (state_of out) = lat /\ _ref_lon (state_of out) = lon /\
  _ref_alt (state_of out) = alt /\
  _map_ref (state_of out) = map_projection_init (_map_ref s) lat lon /\
  _time_origin (state_of out) = _timeStamp s /\
  _global_ref_timestamp (state_of out) = _timeStamp s /\
  _is_global_cov_init (state_of out) = true.
Proof.
  intros Hn Hd Hg. cbv zeta.
  destruct (visionInit_completes_iff s Hn) as [Ha Hc].
  destruct (visionInit_accepted s Ha) as [Hs _].
  destruct (visionInit_completion s Ha Hc)
    as (Hl & (Hla & Hlo & Hal & Hgt & Hci) & (Hm & Ht) & _).
  rewrite Hd, Hg in Hl, Hm, Ht. cbn in Hl, Hm, Ht.
  rewrite Hg in Hci. rewrite Hs. auto 10.
Qed.

(** X15: the first completing call of [visionInit] also establishes the
    altitude origin and marks it as global in either case: the altitude
    is the reference altitude when the global converter is initialised
    and zero otherwise. *)
Theorem visionInit_establishes_altitude_origin (s : Estimator) :
  init_notified (log_of (visionInit s)) = true ->
  _altOriginInitialized s = false ->
  let out := state_of (visionInit s) in
  _altOriginInitialized out = true /\
  _altOriginGlobal out = true /\
  _altOrigin out =
    (if globallocalconverter_initialized then snd (reference s)
     else F32.zero).
Proof.
  intros Hn Hd. cbv zeta.
  destruct (visionInit_completes_iff s Hn) as [Ha Hc].
  destruct (visionInit_completion s Ha Hc) as (_ & _ & _ & Hi & Hg & Ho).
  rewrite Hd in Hg, Ho. auto.
Qed.

(** X16: the unit only ever writes its own bit of the two shared health
    bitmasks: after [visionCorrect], [visionInit] or [visionCheckTimeout]
    every bit outside [SENSOR_VISION] has the value it had before, in the
    fault mask and in the timeout mask. *)
Theorem other_sensors_bits_untouched (s : Estimator) (n : Z) :
  0 <= _sensorFault s < 2 ^ 16 ->
  0 <= _sensorTimeout s < 2 ^ 16 ->
  0 <= n ->
  Z.testbit SENSOR_VISION n = false ->
  let same (s' : Estimator) :=
    Z.testbit (_sensorFault s') n = Z.testbit (_sensorFault s) n /\
    Z.testbit (_sensorTimeout s') n = Z.testbit (_sensorTimeout s) n in
  same (state_of (visionCorrect s)) /\
  same (state_of (visionInit s)) /\
  same (state_of (visionCheckTimeout s)).
Proof.
  intros HF HT Hn Hb. cbv zeta.
  destruct (visionMeasure_frame (Mat.setZero n_y_vision 1) s)
    as (_ & _ & _ & _ & _ & _ & Ht & Hf & _).
  fold (measured s) in Ht, Hf.
  split; [|split].
  - destruct (completed s) eqn:Hc.
    + destruct (visionCorrect_completed_frame s Hc) as (_ & _ & Hto).
      rewrite Hto, Ht. split; [|reflexivity].
      rewrite (visionCorrect_state s Hc).
      destruct (kalman_correction_frame (cycle_r s) (inv (cycle_S s))
                  (state_of (detected s))) as (_ & -> & _).
      destruct (publish_innovations_frame (cycle_r s) (cycle_S s)
                  (state_of (measured s))) as (_ & _ & _ & Hfp).
      fold (published s) in Hfp.
      unfold detected. rewrite fault_detection_cases.
      destruct (F32.gt _ _), (vision_fault (published s));
        unfold state_of at 1; cbn [fst snd];
        try (now rewrite Hfp, Hf).
      * change (_sensorFault (set_sensorFault ?v ?t)) with v.
        rewrite Hfp, Hf. now apply testbit_bit_set.
      * change (_sensorFault (set_sensorFault ?v ?t)) with v.
        rewrite Hfp, Hf. now apply testbit_bit_clear.
    + unfold completed in Hc. destruct (measure_accepted s) eqn:Ha.
      * cbn in Hc.
        assert (E : state_of (visionCorrect s) = state_of (measured s))
          by (now rewrite (visionCorrect_delay_old s Ha Hc)).
        now rewrite E, Hf, Ht.
      * assert (E : state_of (visionCorrect s) = state_of (measured s))
          by (now rewrite (visionCorrect_rejected s Ha)).
        now rewrite E, Hf, Ht.
  - destruct (init_notified (log_of (visionInit s))) eqn:Hi.
    + destruct (visionInit_completes_iff s Hi) as [Ha Hc].
      destruct (visionInit_accepted s Ha) as [_ Hrest].
      rewrite Hc in Hrest. destruct Hrest as (_ & -> & ->).
      split; now apply testbit_bit_clear.
    + destruct (visionInit_incomplete s Hi) as (_ & _ & _ & _ & _ & _ & -> & ->).
      split; reflexivity.
  - unfold visionCheckTimeout, bind, gets.
    destruct (VISION_TIMEOUT <? _); [|split; reflexivity].
    destruct (negb _); [|split; reflexivity].
    unfold state_of. cbn [fst snd]. split; [reflexivity|].
    change (_sensorTimeout (set_visionStats ?v (set_sensorTimeout ?w ?t)))
      with w.
    now apply testbit_bit_set.
Qed.

(** X17: along any run of chained completed cycles, the number of
    notifications emitted is the number of times the sequence of
    threshold tests changes value, starting from the fault bit found by
    the first cycle. *)
Theorem notifications_count_bit_changes (ss : list Estimator) (b : bool) :
  0 < SENSOR_VISION < 2 ^ 16 ->
  chained b ss ->
  length (notifications ss) = transitions b (map beta_exceeds ss).
Proof.
  intros HV. revert b.
  induction ss as [|s rest IH]; intros b Hch; [reflexivity|].
  destruct Hch as (Hc & Hf & Hrest).
  destruct (visionCorrect_fault_edge s HV Hc) as [Hl Hb].
  unfold notifications in *. cbn [map concat transitions].
  rewrite length_app, (IH _ Hrest), Hb, Hl, Hf.
  destruct (beta_exceeds s), b; reflexivity.
Qed.

End Further.

(** * The further properties on the bench *)

Section FurtherOnTheBench.
#[local] Existing Instance Bench.firmware.

Lemma visionCorrect_rejected_effects_witness :
  measure_accepted Probe.too_uncertain = false /\
  log_of (visionCorrect Probe.too_uncertain) =
    [(Info, vision_data_invalid (F32.of_Z 200) F32.one)] /\
  _x (state_of (visionCorrect Probe.too_uncertain)) = _x Probe.too_uncertain.
Proof.
  assert (H : measure_accepted Probe.too_uncertain = false)
    by (vm_compute; reflexivity).
  split; [exact H|].
  destruct (visionCorrect_rejected_effects Probe.too_uncertain H)
    as (Hl & Hx & _).
  split; [|exact Hx].
  rewrite Hl. vm_compute. reflexivity.
Defined.

Lemma visionCorrect_applies_correction_witness :
  completed Bench.active = true /\ beta_exceeds Bench.active = false /\
  _x (state_of (visionCorrect Bench.active)) = corrected_x Bench.active.
Proof.
  assert (H1 : completed Bench.active = true) by (vm_compute; reflexivity).
  assert (H2 : beta_exceeds Bench.active = false)
    by (vm_compute; reflexivity).
  split; [exact H1|]. split; [exact H2|].
  exact (proj1 (proj2 (visionCorrect_applies_correction Bench.active H1 H2))).
Defined.

Lemma visionCorrect_nan_beta_is_no_fault_witness :
  completed Probe.nan_y = true /\
  F32.is_nan (cycle_beta Probe.nan_y) = true /\
  vision_fault (state_of (visionCorrect Probe.nan_y)) = false /\
  _x (state_of (visionCorrect Probe.nan_y)) = corrected_x Probe.nan_y.
Proof.
  assert (H1 : completed Probe.nan_y = true) by (vm_compute; reflexivity).
  assert (H2 : F32.is_nan (cycle_beta Probe.nan_y) = true)
    by (vm_compute; reflexivity).
  split; [exact H1|]. split; [exact H2|].
  destruct (visionCorrect_nan_beta_is_no_fault Probe.nan_y H1 H2)
    as (_ & Hf & Hx & _).
  split; [exact Hf | exact Hx].
Defined.

Lemma visionCheckTimeout_wraps_on_future_sample_witness :
  _timeStamp Probe.ahead < _time_last_vision_p Probe.ahead /\
  vision_timeout Probe.ahead = false /\
  log_of (visionCheckTimeout Probe.ahead) =
    [(Critical, vision_position_timeout)].
Proof.
  assert (H1 : 0 < SENSOR_VISION < 2 ^ 16)
    by (vm_compute; split; reflexivity).
  assert (H2 : 0 <= _timeStamp Probe.ahead) by (vm_compute; congruence).
  assert (H3 : _timeStamp Probe.ahead < _time_last_vision_p Probe.ahead)
    by (vm_compute; reflexivity).
  assert (H4 : _time_last_vision_p Probe.ahead < 2 ^ 64)
    by (vm_compute; reflexivity).
  assert (H5 : _time_last_vision_p Probe.ahead - _timeStamp Probe.ahead
               < 2 ^ 64 - VISION_TIMEOUT) by (vm_compute; reflexivity).
  assert (H6 : vision_timeout Probe.ahead = false)
    by (vm_compute; reflexivity).
  split; [exact H3|]. split; [exact H6|].
  exact (proj1 (visionCheckTimeout_wraps_on_future_sample Probe.ahead
                  H1 H2 H3 H4 H5 H6)).
Defined.

Lemma visionCheckTimeout_within_timeout_witness :
  _timeStamp Probe.half_second - _time_last_vision_p Probe.half_second
    = VISION_TIMEOUT /\
  visionCheckTimeout Probe.half_second = (tt, Probe.half_second, []).
Proof.
  assert (H1 : 0 <= _time_last_vision_p Probe.half_second)
    by (vm_compute; congruence).
  assert (H2 : _time_last_vision_p Probe.half_second
               <= _timeStamp Probe.half_second) by (vm_compute; congruence).
  assert (H3 : _timeStamp Probe.half_second < 2 ^ 64)
    by (vm_compute; reflexivity).
  assert (H4 : _timeStamp Probe.half_second
               - _time_last_vision_p Probe.half_second <= VISION_TIMEOUT)
    by (vm_compute; congruence).
  split; [vm_compute; reflexivity|].
  exact (visionCheckTimeout_within_timeout Probe.half_second H1 H2 H3 H4).
Defined.

Lemma rejected_samples_hold_off_timeout_witness :
  measure_accepted Probe.too_uncertain = false /\
  visionCheckTimeout
    (set_timeStamp 1500000 (state_of (visionCorrect Probe.too_uncertain))) =
  (tt, set_timeStamp 1500000 (state_of (visionCorrect Probe.too_uncertain)),
   []).
Proof.
  assert (H1 : 0 <= Odom.timestamp (_sub_visual_odom Probe.too_uncertain))
    by (vm_compute; congruence).
  assert (H2 : Odom.timestamp (_sub_visual_odom Probe.too_uncertain)
               <= 1500000) by (vm_compute; congruence).
  assert (H3 : 1500000 < 2 ^ 64) by (vm_compute; reflexivity).
  assert (H4 : 1500000 - Odom.timestamp (_sub_visual_odom Probe.too_uncertain)
               <= VISION_TIMEOUT) by (vm_compute; congruence).
  split; [vm_compute; reflexivity|].
  exact (proj2 (rejected_samples_hold_off_timeout Probe.too_uncertain 1500000
                  H1 H2 H3 H4)).
Defined.

Lemma visionCorrect_stale_history_side_effects_witness :
  measure_accepted Bench.late = true /\
  delay_within_horizon Bench.late = false /\
  log_of (visionCorrect Bench.late) = [] /\
  Stats.getCount (_visionStats (state_of (visionCorrect Bench.late))) =
    Stats.getCount (_visionStats Bench.late) + 1.
Proof.
  assert (H1 : measure_accepted Bench.late = true)
    by (vm_compute; reflexivity).
  assert (H2 : delay_within_horizon Bench.late = false)
    by (vm_compute; reflexivity).
  split; [exact H1|]. split; [exact H2|].
  destruct (visionCorrect_stale_history_side_effects Bench.late H1 H2)
    as (Hl & _ & Hc & _).
  split; [exact Hl | exact Hc].
Defined.

Lemma visionCorrect_publishes_innovations_witness :
  completed Bench.active = true /\
  vision_fault (state_of (visionCorrect Bench.active)) = false /\
  vel_pos_innov (_pub_innov (state_of (visionCorrect Bench.active))) =
    [Mat.get (cycle_r Bench.active) 0 0; Mat.get (cycle_r Bench.active) 1 0;
     Mat.get (cycle_r Bench.active) 2 0; F32.zero; F32.zero; F32.zero].
Proof.
  assert (H1 : completed Bench.active = true) by (vm_compute; reflexivity).
  assert (H2 : length (vel_pos_innov (_pub_innov Bench.active)) = 6%nat)
    by (vm_compute; reflexivity).
  assert (H3 : length (vel_pos_innov_var (_pub_innov Bench.active)) = 6%nat)
    by (vm_compute; reflexivity).
  split; [exact H1|]. split; [vm_compute; reflexivity|].
  exact (proj1 (visionCorrect_publishes_innovations Bench.active H1 H2 H3)).
Defined.

Lemma visionInit_two_samples_suffice_witness :
  Stats.getCount (_visionStats Bench.boot) = 0 /\
  init_notified
    (log_of (visionInit
               (next_cycle (Bench.sample 1100000 1 2 3 F32.one F32.one F32.one)
                  1100100 (state_of (visionInit Bench.boot))))) = true.
Proof.
  assert (H1 : Stats.getCount (_visionStats Bench.boot) = 0)
    by (vm_compute; reflexivity).
  assert (H2 : measure_accepted Bench.boot = true)
    by (vm_compute; reflexivity).
  assert (H3 : measure_accepted
                 (next_cycle
                    (Bench.sample 1100000 1 2 3 F32.one F32.one F32.one)
                    1100100 (state_of (visionInit Bench.boot))) = true)
    by (vm_compute; reflexivity).
  split; [exact H1|].
  exact (proj1 (proj2 (visionInit_two_samples_suffice Bench.boot
                         (Bench.sample 1100000 1 2 3 F32.one F32.one F32.one)
                         1100100 H1 H2 H3))).
Defined.

Lemma visionInit_keeps_global_origin_witness :
  init_done (_map_ref Probe.origin_set) = true /\
  init_notified
    (log_of (@visionInit Probe.firmware_with_origin Probe.origin_set)) = true /\
  _map_ref (state_of (@visionInit Probe.firmware_with_origin Probe.origin_set))
    = _map_ref Probe.origin_set.
Proof.
  assert (H : init_done (_map_ref Probe.origin_set) = true)
    by (vm_compute; reflexivity).
  split; [exact H|]. split; [vm_compute; reflexivity|].
  exact (proj1 (@visionInit_keeps_global_origin Probe.firmware_with_origin
                  Probe.origin_set H)).
Defined.

Lemma visionInit_keeps_altitude_origin_witness :
  _altOriginInitialized Probe.alt_set = true /\
  init_notified (log_of (visionInit Probe.alt_set)) = true /\
  _altOrigin (state_of (visionInit Probe.alt_set)) = F32.of_Z 5.
Proof.
  assert (H : _altOriginInitialized Probe.alt_set = true)
    by (vm_compute; reflexivity).
  split; [exact H|]. split; [vm_compute; reflexivity|].
  destruct (visionInit_keeps_altitude_origin Probe.alt_set H) as (_ & _ & Ho).
  rewrite Ho. vm_compute. reflexivity.
Defined.

Lemma visionInit_establishes_global_origin_witness :
  init_notified
    (log_of (@visionInit Probe.firmware_with_origin Probe.one_sample)) = true /\
  init_done (_map_ref Probe.one_sample) = false /\
  _map_ref (state_of (@visionInit Probe.firmware_with_origin Probe.one_sample))
    = mkMapRef true (F32.of_Z 47) (F32.of_Z 8).
Proof.
  assert (H1 : init_notified
                 (log_of (@visionInit Probe.firmware_with_origin
                            Probe.one_sample)) = true)
    by (vm_compute; reflexivity).
  assert (H2 : init_done (_map_ref Probe.one_sample) = false)
    by (vm_compute; reflexivity).
  assert (H3 : @globallocalconverter_initialized Probe.firmware_with_origin
               = true) by (vm_compute; reflexivity).
  split; [exact H1|]. split; [exact H2|].
  destruct (@visionInit_establishes_global_origin Probe.firmware_with_origin
              Probe.one_sample H1 H2 H3) as (_ & _ & _ & _ & Hm & _).
  rewrite Hm. vm_compute. reflexivity.
Defined.

Lemma visionInit_establishes_altitude_origin_witness :
  init_notified (log_of (visionInit Probe.one_sample)) = true /\
  _altOriginInitialized Probe.one_sample = false /\
  _altOriginGlobal (state_of (visionInit Probe.one_sample)) = true /\
  _altOrigin (state_of (visionInit Probe.one_sample)) = F32.zero.
Proof.
  assert (H1 : init_notified (log_of (visionInit Probe.one_sample)) = true)
    by (vm_compute; reflexivity).
  assert (H2 : _altOriginInitialized Probe.one_sample = false)
    by (vm_compute; reflexivity).
  split; [exact H1|]. split; [exact H2|].
  destruct (visionInit_establishes_altitude_origin Probe.one_sample H1 H2)
    as (_ & Hg & Ho).
  split; [exact Hg | exact Ho].
Defined.

Lemma other_sensors_bits_untouched_witness :
  vision_fault (state_of (visionCorrect Bench.outlier)) = true /\
  Z.testbit (_sensorFault (state_of (visionCorrect Bench.outlier))) 0 =
  Z.testbit (_sensorFault Bench.outlier) 0.
Proof.
  assert (H1 : 0 <= _sensorFault Bench.outlier < 2 ^ 16)
    by (vm_compute; split; congruence).
  assert (H2 : 0 <= _sensorTimeout Bench.outlier < 2 ^ 16)
    by (vm_compute; split; congruence).
  assert (H3 : 0 <= 0) by (vm_compute; congruence).
  assert (H4 : Z.testbit SENSOR_VISION 0 = false)
    by (vm_compute; reflexivity).
  split; [vm_compute; reflexivity|].
  exact (proj1 (proj1 (other_sensors_bits_untouched Bench.outlier 0
                         H1 H2 H3 H4))).
Defined.

Lemma notifications_count_bit_changes_witness :
  chained false [Bench.c1; Bench.c2; Bench.c3; Bench.c4; Bench.c5] /\
  length (notifications [Bench.c1; Bench.c2; Bench.c3; Bench.c4; Bench.c5]) =
  transitions false
    (map beta_exceeds [Bench.c1; Bench.c2; Bench.c3; Bench.c4; Bench.c5]).
Proof.
  assert (H1 : 0 < SENSOR_VISION < 2 ^ 16)
    by (vm_compute; split; reflexivity).
  assert (H2 : chained false [Bench.c1; Bench.c2; Bench.c3; Bench.c4; Bench.c5])
    by (vm_compute; repeat split; reflexivity).
  split; [exact H2|].
  exact (notifications_count_bit_changes
           [Bench.c1; Bench.c2; Bench.c3; Bench.c4; Bench.c5] false H1 H2).
Defined.

End FurtherOnTheBench.
